(** * Netplan converter: a shallow embedding of [scripts/netplan_converter.py]

  The development follows the Python source section by section:

  - [Py]: the fragment of Python's data model the converter relies on
    (values produced by [yaml.safe_load], truthiness, [in], [len], [str],
    [repr], [int], [split], [join], insertion-ordered [dict]);
  - [Exec]: the converter object with its two mutable fields, and a small
    state-and-exception monad in which a raised exception keeps the
    mutations made so far, as an exception inside a Python method does;
  - the methods of [NetplanConverter], in the order of the source;
  - the module-level functions [write_output_files] and [main], as the
    sequence of calls they make to the outside world;
  - the vocabulary of the properties: the shape of a valid document and
    the lines it is translated to, as pure functions;
  - the properties of the translation.

  Conventions.  A character is a code point below 256 ([ascii]); YAML
  floats, timestamps and mappings with keys that are not strings are not
  represented.  A [YMap] stands for a [dict], so its keys are meant to be
  distinct; the properties that count entries say so.  [int] has the
  interpreter's default limit on the number of digits of a text; a text
  that is parsed is parsed to the same number without the limit.  A
  [YInt] stands for an integer within that limit, which [str] prints. *)

From Stdlib Require Import ZArith String Ascii List Bool Lia DecimalString.
Import ListNotations.

Set Warnings "-register-all".

Local Open Scope string_scope.
Local Open Scope Z_scope.
Local Open Scope list_scope.

(** String concatenation; [++] is kept for lists. *)
Infix "+++" := String.append (at level 60, right associativity).

(* ================================================================== *)
(** * Python values and built-ins *)
(* ================================================================== *)

Module Py.

(** Exceptions.  The four first are raised by the interpreter; their
    message is not represented.  [ValueError_msg] is a [ValueError] raised
    by the source itself, with its message. *)
Inductive exn : Type :=
| AttributeError
| TypeError
| KeyError
| ValueError
| ValueError_msg (msg : string).

Inductive result (A : Type) : Type :=
| Ok (a : A)
| Raise (e : exn).
Arguments Ok {A} a.
Arguments Raise {A} e.

Definition rbind {A B} (r : result A) (k : A -> result B) : result B :=
  match r with
  | Ok a => k a
  | Raise e => Raise e
  end.

Notation "x <-? r ; k" := (rbind r (fun x => k))
  (at level 200, r at level 100, k at level 200, right associativity).

(** An insertion-ordered dictionary with string keys. *)
Definition dict (V : Type) : Type := list (string * V).

(** What [yaml.safe_load] returns. *)
Inductive yaml : Type :=
| YNull
| YBool (b : bool)
| YInt (z : Z)
| YStr (s : string)
| YList (l : list yaml)
| YMap (m : list (string * yaml)).

(** ** Dictionaries *)

Fixpoint dict_get {V} (d : dict V) (k : string) : option V :=
  match d with
  | [] => None
  | (k', v) :: d' => if String.eqb k' k then Some v else dict_get d' k
  end.

Definition dict_mem {V} (d : dict V) (k : string) : bool :=
  match dict_get d k with Some _ => true | None => false end.

Definition keys {V} (d : dict V) : list string := map fst d.

(** [d[k] = v]: an existing key keeps its position. *)
Fixpoint dict_set {V} (d : dict V) (k : string) (v : V) : dict V :=
  match d with
  | [] => [(k, v)]
  | (k', v') :: d' =>
      if String.eqb k' k then (k', v) :: d' else (k', v') :: dict_set d' k v
  end.

(** ** Characters and strings *)

Definition nl : string := String "010"%char EmptyString.
Definition dq : string := String "034"%char EmptyString.
Definition sq : string := String "039"%char EmptyString.

Definition code (c : ascii) : Z := Z.of_nat (nat_of_ascii c).

(** [needle in hay] for two strings. *)
Fixpoint str_contains (needle hay : string) : bool :=
  String.prefix needle hay
  || match hay with
     | EmptyString => false
     | String _ hay' => str_contains needle hay'
     end.

(** [s.split(sep)] for a separator of one character. *)
Fixpoint str_split (sep : ascii) (s : string) : list string :=
  match s with
  | EmptyString => [EmptyString]
  | String c s' =>
      if Ascii.eqb c sep then EmptyString :: str_split sep s'
      else match str_split sep s' with
           | [] => [String c EmptyString]
           | hd :: tl => String c hd :: tl
           end
  end.

(** [sep.join(parts)]. *)
Definition str_join (sep : string) (parts : list string) : string :=
  String.concat sep parts.

Definition chars (s : string) : list string :=
  map (fun c => String c EmptyString) (list_ascii_of_string s).

(** [str(n)] for an integer. *)
Definition str_of_int (z : Z) : string := NilZero.string_of_int (Z.to_int z).

(** The blanks [int] skips on both sides of a number: tab, line feed,
    vertical tab, form feed, carriage return and space, and the two blanks
    above 127, next line and no-break space.  The separators 28 to 31 are
    not among them, although [str.isspace] holds of them. *)
Definition is_space (c : ascii) : bool :=
  let n := code c in
  ((9 <=? n) && (n <=? 13)) || (n =? 32) || (n =? 133) || (n =? 160).

Definition is_digit (c : ascii) : bool :=
  let n := code c in (48 <=? n) && (n <=? 57).

Fixpoint lstrip (s : list ascii) : list ascii :=
  match s with
  | c :: s' => if is_space c then lstrip s' else s
  | [] => []
  end.

Definition strip (s : list ascii) : list ascii :=
  rev (lstrip (rev (lstrip s))).

(** Decimal digits, single underscores allowed between two digits. *)
Fixpoint int_digits (acc : Z) (after_digit : bool) (s : list ascii) : option Z :=
  match s with
  | [] => if after_digit then Some acc else None
  | c :: s' =>
      if is_digit c then int_digits (10 * acc + (code c - 48)) true s'
      else if Ascii.eqb c "_"%char then
        if after_digit then int_digits acc false s' else None
      else None
  end.

(** [sys.get_int_max_str_digits()], as the interpreter sets it. *)
Definition int_max_str_digits : Z := 4300.

(** [int(s)] in base ten: [None] stands for [ValueError].  A text with
    more digits than the limit is refused, whatever its value. *)
Definition int_of_str (s : string) : option Z :=
  let text := strip (list_ascii_of_string s) in
  if int_max_str_digits <? Z.of_nat (List.length (filter is_digit text))
  then None
  else
    match text with
    | [] => None
    | c :: s' =>
        if Ascii.eqb c "-"%char then option_map Z.opp (int_digits 0 false s')
        else if Ascii.eqb c "+"%char then int_digits 0 false s'
        else int_digits 0 false (c :: s')
    end.

(** ** [repr] and [str] *)

Definition hex_digit (n : Z) : string :=
  match n with
  | 0 => "0" | 1 => "1" | 2 => "2" | 3 => "3" | 4 => "4" | 5 => "5"
  | 6 => "6" | 7 => "7" | 8 => "8" | 9 => "9" | 10 => "a" | 11 => "b"
  | 12 => "c" | 13 => "d" | 14 => "e" | _ => "f"
  end.

Definition is_printable (c : ascii) : bool :=
  let n := code c in
  negb ((n <? 32) || ((127 <=? n) && (n <=? 160)) || (n =? 173)).

Definition repr_char (quote : ascii) (c : ascii) : string :=
  if Ascii.eqb c "\"%char then "\\"
  else if Ascii.eqb c quote then String "\"%char (String c EmptyString)
  else if Ascii.eqb c "009"%char then "\t"
  else if Ascii.eqb c "010"%char then "\n"
  else if Ascii.eqb c "013"%char then "\r"
  else if is_printable c then String c EmptyString
  else "\x" +++ hex_digit (code c / 16) +++ hex_digit (code c mod 16).

Definition repr_str (s : string) : string :=
  let quote :=
    if str_contains sq s && negb (str_contains dq s)
    then "034"%char else "039"%char in
  String quote
    (String.concat "" (map (repr_char quote) (list_ascii_of_string s))
     +++ String quote EmptyString).

Fixpoint repr (v : yaml) : string :=
  match v with
  | YNull => "None"
  | YBool true => "True"
  | YBool false => "False"
  | YInt z => str_of_int z
  | YStr s => repr_str s
  | YList l => "[" +++ String.concat ", " (map repr l) +++ "]"
  | YMap m =>
      "{" +++ String.concat ", "
               (map (fun kv => repr_str (fst kv) +++ ": " +++ repr (snd kv)) m)
          +++ "}"
  end.

(** [str(v)], as an f-string formats a value. *)
Definition str (v : yaml) : string :=
  match v with
  | YStr s => s
  | _ => repr v
  end.

(** ** Operators on values *)

(** [bool(v)] *)
Definition truthy (v : yaml) : bool :=
  match v with
  | YNull => false
  | YBool b => b
  | YInt z => negb (z =? 0)
  | YStr s => negb (String.eqb s "")
  | YList l => match l with [] => false | _ => true end
  | YMap m => match m with [] => false | _ => true end
  end.

(** [v == n] for an integer literal [n]. *)
Definition eq_int (v : yaml) (n : Z) : bool :=
  match v with
  | YInt z => z =? n
  | YBool b => (if b then 1 else 0) =? n
  | _ => false
  end.

(** [v == s] for a string literal [s]. *)
Definition eq_str (v : yaml) (s : string) : bool :=
  match v with
  | YStr t => String.eqb t s
  | _ => false
  end.

(** [k in v] for a string literal [k]. *)
Definition contains (k : string) (v : yaml) : result bool :=
  match v with
  | YMap m => Ok (dict_mem m k)
  | YStr s => Ok (str_contains k s)
  | YList l => Ok (existsb (fun x => eq_str x k) l)
  | _ => Raise TypeError
  end.

(** [v[k]] for a string literal [k]. *)
Definition getitem (v : yaml) (k : string) : result yaml :=
  match v with
  | YMap m => match dict_get m k with Some x => Ok x | None => Raise KeyError end
  | _ => Raise TypeError
  end.

(** [v.get(k, default)] *)
Definition get (v : yaml) (k : string) (default : yaml) : result yaml :=
  match v with
  | YMap m => Ok (match dict_get m k with Some x => x | None => default end)
  | _ => Raise AttributeError
  end.

(** [v.items()] *)
Definition items (v : yaml) : result (list (string * yaml)) :=
  match v with
  | YMap m => Ok m
  | _ => Raise AttributeError
  end.

(** The elements [for x in v] visits. *)
Definition iter (v : yaml) : result (list yaml) :=
  match v with
  | YStr s => Ok (map YStr (chars s))
  | YList l => Ok l
  | YMap m => Ok (map YStr (keys m))
  | _ => Raise TypeError
  end.

(** [len(v)] *)
Definition len (v : yaml) : result Z :=
  match v with
  | YStr s => Ok (Z.of_nat (String.length s))
  | YList l => Ok (Z.of_nat (List.length l))
  | YMap m => Ok (Z.of_nat (List.length m))
  | _ => Raise TypeError
  end.

(** [v.split('/')] with a separator of one character. *)
Definition split (v : yaml) (sep : ascii) : result (list string) :=
  match v with
  | YStr s => Ok (str_split sep s)
  | _ => Raise AttributeError
  end.

(** [sep.join(v)]: every element has to be a string. *)
Fixpoint all_str (l : list yaml) : result (list string) :=
  match l with
  | [] => Ok []
  | YStr s :: l' => r <-? all_str l' ; Ok (s :: r)
  | _ :: _ => Raise TypeError
  end.

Definition join (sep : string) (v : yaml) : result string :=
  l <-? iter v ; parts <-? all_str l ; Ok (str_join sep parts).

(** [all(c in alphabet for c in v)], which stops at the first [False]. *)
Fixpoint all_in (alphabet : string) (l : list yaml) : result bool :=
  match l with
  | [] => Ok true
  | YStr c :: l' => if str_contains c alphabet then all_in alphabet l' else Ok false
  | _ :: _ => Raise TypeError
  end.

(** A [for] loop that threads an accumulator and stops at an exception. *)
Fixpoint for_acc {A B} (step : B -> A -> result B) (l : list A) (acc : B)
  : result B :=
  match l with
  | [] => Ok acc
  | x :: l' => acc' <-? step acc x ; for_acc step l' acc'
  end.

End Py.
Import Py.


(* ================================================================== *)
(** * The converter object and its execution monad *)
(* ================================================================== *)

Module Exec.

(** The fields [__init__] sets. *)
Record NetplanConverter : Type := mkConverter {
  config : yaml;
  interfaces_content : list string;
  wpa_configs : dict string  (* interface -> wpa_supplicant config *)
}.

(** A method body: it reads and mutates [self]; when it raises, the
    mutations made before stay. *)
Definition M (A : Type) : Type := NetplanConverter -> result A * NetplanConverter.

Definition ret {A} (a : A) : M A := fun self => (Ok a, self).

Definition bind {A B} (m : M A) (k : A -> M B) : M B :=
  fun self =>
    match m self with
    | (Ok a, self') => k a self'
    | (Raise e, self') => (Raise e, self')
    end.

Definition raise {A} (e : exn) : M A := fun self => (Raise e, self).

Definition lift {A} (r : result A) : M A := fun self => (r, self).

Definition self_config : M yaml := fun self => (Ok (config self), self).

Definition self_interfaces_content : M (list string) :=
  fun self => (Ok (interfaces_content self), self).

Definition self_wpa_configs : M (dict string) :=
  fun self => (Ok (wpa_configs self), self).

(** [self.interfaces_content.extend(lines)] *)
Definition interfaces_content_extend (lines : list string) : M unit :=
  fun self =>
    (Ok tt, mkConverter (config self) (interfaces_content self ++ lines)
                        (wpa_configs self)).

(** [self.interfaces_content.append(line)] *)
Definition interfaces_content_append (line : string) : M unit :=
  interfaces_content_extend [line].

(** [self.wpa_configs[iface_name] = content] *)
Definition wpa_configs_setitem (iface_name content : string) : M unit :=
  fun self =>
    (Ok tt, mkConverter (config self) (interfaces_content self)
                        (dict_set (wpa_configs self) iface_name content)).

Notation "x <- m ;; k" := (bind m (fun x => k))
  (at level 200, m at level 100, k at level 200, right associativity).
Notation "m ;; k" := (bind m (fun _ => k))
  (at level 200, k at level 200, right associativity).

(** A [for] loop whose body is a method call. *)
Fixpoint for_each {A} (l : list A) (body : A -> M unit) : M unit :=
  match l with
  | [] => ret tt
  | x :: l' => body x ;; for_each l' body
  end.

End Exec.
Import Exec.

(* ================================================================== *)
(** * class NetplanConverter *)
(* ================================================================== *)

(** [__init__] *)
Definition __init__ (netplan_config : yaml) : NetplanConverter :=
  mkConverter netplan_config [] [].

(** [_cidr_to_netmask] (static method).  A negative shift count raises
    [ValueError]. *)
Definition _cidr_to_netmask (prefix_len : Z) : result string :=
  if 32 - prefix_len <? 0 then Raise ValueError
  else
    let mask := Z.shiftl (Z.shiftr 0xffffffff (32 - prefix_len)) (32 - prefix_len) in
    Ok (str_join "." [
          str_of_int (Z.land (Z.shiftr mask 24) 0xff);
          str_of_int (Z.land (Z.shiftr mask 16) 0xff);
          str_of_int (Z.land (Z.shiftr mask 8) 0xff);
          str_of_int (Z.land mask 0xff)
        ]).

Definition hex_alphabet : string := "0123456789abcdefABCDEF".

(** [_generate_wpa_supplicant_config]: the body of the loop over the
    access points. *)
Definition network_block (lines : list string) (ap : string * yaml)
  : result (list string) :=
  let (ssid, ap_config) := ap in
  let lines := lines ++ ["network={"] in
  let lines := lines ++ ["    ssid=" +++ dq +++ ssid +++ dq] in
  (* Handle password/PSK *)
  has_password <-? contains "password" ap_config ;
  lines <-? (if has_password then
               password <-? getitem ap_config "password" ;
               n <-? len password ;
               is_hex <-? (if n =? 64
                           then l <-? iter password ; all_in hex_alphabet l
                           else Ok false) ;
               if is_hex
               then Ok (lines ++ ["    psk=" +++ str password])
               else Ok (lines ++ ["    psk=" +++ dq +++ str password +++ dq])
             else Ok lines) ;
  (* Handle hidden networks *)
  hidden <-? get ap_config "hidden" (YBool false) ;
  let lines := if truthy hidden then lines ++ ["    scan_ssid=1"] else lines in
  (* Handle network priority *)
  has_priority <-? contains "priority" ap_config ;
  lines <-? (if has_priority then
               priority <-? getitem ap_config "priority" ;
               Ok (lines ++ ["    priority=" +++ str priority])
             else Ok lines) ;
  (* Handle security mode *)
  mode <-? get ap_config "mode" (YStr "infrastructure") ;
  let lines := if eq_str mode "adhoc" then lines ++ ["    mode=1"] else lines in
  (* Handle auth/key management *)
  has_auth <-? contains "auth" ap_config ;
  lines <-? (if has_auth then
               auth <-? getitem ap_config "auth" ;
               if eq_str auth "open"
               then Ok (lines ++ ["    key_mgmt=NONE"])
               else Ok lines
             else Ok lines) ;
  let lines := lines ++ ["}"] in
  let lines := lines ++ [""] in
  Ok lines.

(** [_generate_wpa_supplicant_config] *)
Definition _generate_wpa_supplicant_config (access_points : yaml) : result string :=
  let lines := ["update_config=1"; ""] in
  aps <-? items access_points ;
  lines <-? for_acc network_block aps lines ;
  Ok (str_join nl lines).

(** [_add_interface_config], static branch: the body of the loop over
    [addresses]. *)
Definition address_step (lines : list string) (addr : yaml) : result (list string) :=
  has_slash <-? contains "/" addr ;
  if has_slash then
    parts <-? split addr "/" ;
    match parts with
    | [ip; prefix] =>
        match int_of_str prefix with
        | Some prefix_len =>
            netmask <-? _cidr_to_netmask prefix_len ;
            let lines := lines ++ ["    address " +++ ip] in
            let lines := lines ++ ["    netmask " +++ netmask] in
            Ok lines
        | None => Raise ValueError
        end
    | _ => Raise ValueError
    end
  else Ok (lines ++ ["    address " +++ str addr]).

(** [_add_interface_config]: "Determine addressing method". *)
Definition addressing (iface_name : string) (iface_config : yaml)
  (lines : list string) : result (list string) :=
  dhcp4 <-? get iface_config "dhcp4" (YBool false) ;
  dhcp6 <-? get iface_config "dhcp6" (YBool false) ;
  addresses <-? get iface_config "addresses" (YList []) ;
  if truthy dhcp4 then
    Ok (lines ++ ["iface " +++ iface_name +++ " inet dhcp"])
  else if truthy addresses then
    (* Static IP configuration *)
    let lines := lines ++ ["iface " +++ iface_name +++ " inet static"] in
    addrs <-? iter addresses ;
    lines <-? for_acc address_step addrs lines ;
    (* Add gateway if specified *)
    has_gateway <-? contains "gateway4" iface_config ;
    lines <-? (if has_gateway then
                 gateway4 <-? getitem iface_config "gateway4" ;
                 Ok (lines ++ ["    gateway " +++ str gateway4])
               else Ok lines) ;
    (* Add nameservers if specified *)
    has_nameservers <-? contains "nameservers" iface_config ;
    if has_nameservers then
      nameservers <-? getitem iface_config "nameservers" ;
      has_addresses <-? contains "addresses" nameservers ;
      if has_addresses then
        ns_addresses <-? getitem nameservers "addresses" ;
        dns_servers <-? join " " ns_addresses ;
        Ok (lines ++ ["    dns-nameservers " +++ dns_servers])
      else Ok lines
    else Ok lines
  else
    (* Manual configuration *)
    Ok (lines ++ ["iface " +++ iface_name +++ " inet manual"]).

(** [_add_interface_config]: "Handle WiFi-specific configuration". *)
Definition wifi_directives (iface_name : string) (iface_config : yaml)
  (is_wifi : bool) (lines : list string) : M (list string) :=
  has_aps <- lift (if is_wifi then contains "access-points" iface_config
                   else Ok false) ;;
  if has_aps then
    access_points <- lift (getitem iface_config "access-points") ;;
    (* Generate wpa_supplicant configuration *)
    let wpa_conf_path :=
      "/etc/wpa_supplicant/wpa_supplicant-" +++ iface_name +++ ".conf" in
    content <- lift (_generate_wpa_supplicant_config access_points) ;;
    wpa_configs_setitem iface_name content ;;
    (* Add wpa_supplicant directives to interface config *)
    let lines := lines ++ ["    wpa-driver wext"] in
    let lines := lines ++ ["    wpa-conf " +++ wpa_conf_path] in
    ret lines
  else ret lines.

(** [_add_interface_config]: "Add MTU if specified". *)
Definition mtu_directive (iface_config : yaml) (lines : list string)
  : result (list string) :=
  has_mtu <-? contains "mtu" iface_config ;
  if has_mtu then
    mtu <-? getitem iface_config "mtu" ;
    Ok (lines ++ ["    mtu " +++ str mtu])
  else Ok lines.

(** [_add_interface_config]: the body of the loop over [routes]. *)
Definition route_step (lines : list string) (route : yaml) : result (list string) :=
  has_to <-? contains "to" route ;
  has_both <-? (if has_to then contains "via" route else Ok false) ;
  if has_both then
    to <-? getitem route "to" ;
    via <-? getitem route "via" ;
    let lines :=
      lines ++ ["    up route add -net " +++ str to +++ " gw " +++ str via] in
    to' <-? getitem route "to" ;
    via' <-? getitem route "via" ;
    let lines :=
      lines ++ ["    down route del -net " +++ str to' +++ " gw " +++ str via'] in
    Ok lines
  else Ok lines.

(** [_add_interface_config]: "Add routes if specified". *)
Definition route_directives (iface_config : yaml) (lines : list string)
  : result (list string) :=
  has_routes <-? contains "routes" iface_config ;
  if has_routes then
    routes <-? getitem iface_config "routes" ;
    l <-? iter routes ;
    for_acc route_step l lines
  else Ok lines.

(** [_add_interface_config] *)
Definition _add_interface_config (iface_name : string) (iface_config : yaml)
  (is_wifi : bool) : M unit :=
  (* Start building interface block *)
  let lines := [] in
  let lines := lines ++ ["auto " +++ iface_name] in
  lines <- lift (addressing iface_name iface_config lines) ;;
  lines <- wifi_directives iface_name iface_config is_wifi lines ;;
  lines <- lift (mtu_directive iface_config lines) ;;
  lines <- lift (route_directives iface_config lines) ;;
  (* Add the interface block to output *)
  interfaces_content_extend lines ;;
  interfaces_content_append "".

(** [_process_ethernets] *)
Definition _process_ethernets (ethernets : yaml) : M unit :=
  l <- lift (items ethernets) ;;
  for_each l (fun '(iface_name, iface_config) =>
    if String.eqb iface_name "renderer" then ret tt
    else _add_interface_config iface_name iface_config false).

(** [_process_wifis] *)
Definition _process_wifis (wifis : yaml) : M unit :=
  l <- lift (items wifis) ;;
  for_each l (fun '(iface_name, iface_config) =>
    if String.eqb iface_name "renderer" then ret tt
    else _add_interface_config iface_name iface_config true).

(** [convert] *)
Definition convert : M (string * dict string) :=
  cfg <- self_config ;;
  version <- lift (get cfg "version" (YInt 2)) ;;
  if negb (eq_int version 2) then
    raise (ValueError_msg ("Unsupported netplan version: " +++ str version))
  else
    (* Add loopback interface (always present) *)
    interfaces_content_extend ["auto lo"; "iface lo inet loopback"; ""] ;;
    (* Process network section *)
    network <- lift (get cfg "network" cfg) ;;
    (* Check if eth0 is explicitly configured *)
    has_ethernets <- lift (contains "ethernets" network) ;;
    eth0_configured <-
      (if has_ethernets then
         ethernets <- lift (getitem network "ethernets") ;;
         eth0_configured <- lift (contains "eth0" ethernets) ;;
         _process_ethernets ethernets ;;
         ret eth0_configured
       else ret false) ;;
    (* Add default eth0 configuration if not explicitly configured *)
    (if negb eth0_configured then
       interfaces_content_extend ["auto eth0"; "iface eth0 inet dhcp"; ""]
     else ret tt) ;;
    (* Process wifi interfaces *)
    has_wifis <- lift (contains "wifis" network) ;;
    (if has_wifis then
       wifis <- lift (getitem network "wifis") ;;
       _process_wifis wifis
     else ret tt) ;;
    content <- self_interfaces_content ;;
    wpa <- self_wpa_configs ;;
    ret (str_join nl content, wpa).

(** [NetplanConverter(config).convert()], as [main] calls it. *)
Definition run_convert (netplan_config : yaml) :=
  convert (__init__ netplan_config).

(* ================================================================== *)
(** * Module-level functions: [write_output_files] and [main] *)
(* ================================================================== *)

(** The outside world is seen through the calls the script makes, in
    order.  A [print] returns; a call to the file system returns or
    raises, as the environment decides given the calls made before. *)

(** A [pathlib.Path], by the expression that builds it: [Path(s)] and
    [p / name].  Two expressions can name the same file, as
    [Path(d) / "interfaces"] and [Path(d + "/interfaces")] do; a property
    about a file given by its name is therefore not stated on these
    terms. *)
Inductive path : Type :=
| Path (s : string)
| PathJoin (p : path) (name : string).

Inductive stream : Type := Stdout | Stderr.

(** What the [try] block of [main] catches as an [Exception]. *)
Inductive failure : Type :=
| ConvertError (e : exn)
| LoadError
| OSError.

Inductive action : Type :=
| Print (out : stream) (text : string)
| PrintWriting (p : path)            (* print(f"Writing {p}...") *)
| PrintError (f : failure)           (* print(f"Error: {e}", file=sys.stderr) *)
| PrintTraceback                     (* traceback.print_exc() *)
| Mkdir (p : path) (parents exist_ok : bool)
| WriteFile (p : path) (content : string)
| Chmod (p : path) (mode : Z).

(** What the script reads from its environment.  [load_netplan_config]
    stands for the function of that name, which opens the file and hands
    it to [yaml.safe_load]: [None] when it raises. *)
Record env : Type := mkEnv {
  path_exists : string -> bool;
  geteuid : Z;
  load_netplan_config : string -> option yaml;
  os_raises : list action -> action -> bool
}.

Inductive outcome (A : Type) : Type :=
| Done (a : A)
| Failed (f : failure).
Arguments Done {A} a.
Arguments Failed {A} f.

Definition IO (A : Type) : Type := list action -> outcome A * list action.

Definition io_ret {A} (a : A) : IO A := fun trace => (Done a, trace).

Definition io_bind {A B} (m : IO A) (k : A -> IO B) : IO B :=
  fun trace =>
    match m trace with
    | (Done a, trace') => k a trace'
    | (Failed f, trace') => (Failed f, trace')
    end.

Definition io_fail {A} (f : failure) : IO A := fun trace => (Failed f, trace).

(** A call that returns. *)
Definition out (a : action) : IO unit := fun trace => (Done tt, trace ++ [a]).

(** A call to the file system. *)
Definition call (e : env) (a : action) : IO unit :=
  fun trace =>
    if os_raises e trace a then (Failed OSError, trace ++ [a])
    else (Done tt, trace ++ [a]).

Notation "x <~ m ;; k" := (io_bind m (fun x => k))
  (at level 200, m at level 100, k at level 200, right associativity).
Notation "m ;;; k" := (io_bind m (fun _ => k))
  (at level 200, k at level 200, right associativity).

Fixpoint io_for_each {A} (l : list A) (body : A -> IO unit) : IO unit :=
  match l with
  | [] => io_ret tt
  | x :: l' => body x ;;; io_for_each l' body
  end.

(** ["=" * 60] *)
Definition rule : string := string_of_list_ascii (repeat "="%char 60).

(** [0o600] *)
Definition mode_0o600 : Z := 6 * 64.

(** [if output_dir:] for [None] or a string. *)
Definition given (output_dir : option string) : bool :=
  match output_dir with
  | Some s => negb (String.eqb s "")
  | None => false
  end.

(** [write_output_files] *)
Definition write_output_files (e : env) (interfaces_content : string)
  (wpa_configs : dict string) (output_dir : option string) (dry_run : bool)
  : IO unit :=
  if dry_run then
    out (Print Stdout rule) ;;;
    out (Print Stdout "Generated /etc/network/interfaces:") ;;;
    out (Print Stdout rule) ;;;
    out (Print Stdout interfaces_content) ;;;
    out (Print Stdout "") ;;;
    io_for_each wpa_configs (fun '(iface_name, wpa_content) =>
      out (Print Stdout rule) ;;;
      out (Print Stdout ("Generated /etc/wpa_supplicant/wpa_supplicant-"
                         +++ iface_name +++ ".conf:")) ;;;
      out (Print Stdout rule) ;;;
      out (Print Stdout wpa_content) ;;;
      out (Print Stdout ""))
  else
    (* Determine output paths *)
    paths <~ (match output_dir with
              | Some dir =>
                  if negb (String.eqb dir "") then
                    let output_dir := Path dir in
                    call e (Mkdir output_dir true true) ;;;
                    let interfaces_path := PathJoin output_dir "interfaces" in
                    let wpa_dir := PathJoin output_dir "wpa_supplicant" in
                    call e (Mkdir wpa_dir false true) ;;;
                    io_ret (interfaces_path, wpa_dir)
                  else
                    let interfaces_path := Path "/etc/network/interfaces" in
                    let wpa_dir := Path "/etc/wpa_supplicant" in
                    call e (Mkdir wpa_dir true true) ;;;
                    io_ret (interfaces_path, wpa_dir)
              | None =>
                  let interfaces_path := Path "/etc/network/interfaces" in
                  let wpa_dir := Path "/etc/wpa_supplicant" in
                  call e (Mkdir wpa_dir true true) ;;;
                  io_ret (interfaces_path, wpa_dir)
              end) ;;
    let interfaces_path := fst paths in
    let wpa_dir := snd paths in
    (* Write /etc/network/interfaces *)
    out (PrintWriting interfaces_path) ;;;
    call e (WriteFile interfaces_path interfaces_content) ;;;
    (* Write wpa_supplicant configs *)
    io_for_each wpa_configs (fun '(iface_name, wpa_content) =>
      let wpa_path :=
        PathJoin wpa_dir ("wpa_supplicant-" +++ iface_name +++ ".conf") in
      out (PrintWriting wpa_path) ;;;
      call e (WriteFile wpa_path wpa_content) ;;;
      (* Set restrictive permissions on WiFi config (contains passwords) *)
      call e (Chmod wpa_path mode_0o600)) ;;;
    out (Print Stdout "Configuration files written successfully!").

(** The arguments [argparse] returns. *)
Record args : Type := mkArgs {
  input_file : string;
  output_dir : option string;
  dry_run : bool
}.

(** [main] from [args = parser.parse_args()] on, for the arguments [a]
    that call has returned: the calls made and the exit status. *)
Definition main (e : env) (a : args) : list action * Z :=
  (* Check if input file exists *)
  if negb (path_exists e (input_file a)) then
    ([Print Stderr ("Error: Input file '" +++ input_file a +++ "' not found")],
     1)
  (* Check for root privileges if writing to system paths *)
  else if negb (dry_run a) && negb (given (output_dir a))
          && negb (geteuid e =? 0) then
    ([Print Stderr "Error: Root privileges required to write to /etc";
      Print Stderr "Try: sudo python3 netplan_converter.py <input_file>";
      Print Stderr "Or use --output-dir to write to a custom directory"],
     1)
  else
    let body : IO unit :=
      (* Load and parse netplan config *)
      out (Print Stdout ("Loading configuration from " +++ input_file a
                         +++ "...")) ;;;
      config <~ (match load_netplan_config e (input_file a) with
                 | Some config => io_ret config
                 | None => io_fail LoadError
                 end) ;;
      (* Convert to interfaces format *)
      out (Print Stdout "Converting configuration...") ;;;
      converted <~ (match fst (run_convert config) with
                    | Ok converted => io_ret converted
                    | Raise ex => io_fail (ConvertError ex)
                    end) ;;
      (* Write output files *)
      write_output_files e (fst converted) (snd converted)
        (output_dir a) (dry_run a)
    in
    match body [] with
    | (Done _, trace) => (trace, 0)
    | (Failed f, trace) => (trace ++ [PrintError f; PrintTraceback], 1)
    end.



(* ================================================================== *)
(** * Vocabulary of the properties *)
(* ================================================================== *)

(** The dotted-decimal text of a 32-bit mask, most significant octet
    first. *)
Definition dotted_quad (mask : Z) : string :=
  str_of_int (mask / 2 ^ 24 mod 256) +++ "." +++
  str_of_int (mask / 2 ^ 16 mod 256) +++ "." +++
  str_of_int (mask / 2 ^ 8 mod 256) +++ "." +++
  str_of_int (mask mod 256).

(** The 32-bit mask whose [p] leading bits are set. *)
Definition prefix_mask (p : Z) : Z := 2 ^ 32 - 2 ^ (32 - p).

(** A hexadecimal digit, in either case. *)
Definition is_hex_char (c : ascii) : bool :=
  let n := code c in
  ((48 <=? n) && (n <=? 57)) || ((97 <=? n) && (n <=? 102))
  || ((65 <=? n) && (n <=? 70)).

(** A password that is taken for a pre-hashed key: 64 hexadecimal digits. *)
Definition is_prehashed (password : string) : bool :=
  Nat.eqb (String.length password) 64
  && forallb is_hex_char (list_ascii_of_string password).

Definition psk_line (password : string) : string :=
  if is_prehashed password
  then "    psk=" +++ password
  else "    psk=" +++ dq +++ password +++ dq.

(** The lines of a [network={...}] block that follow the password. *)
Definition ap_options (ap_config : dict yaml) : list string :=
  (match dict_get ap_config "hidden" with
   | Some hidden => if truthy hidden then ["    scan_ssid=1"] else []
   | None => []
   end)
  ++ (match dict_get ap_config "priority" with
      | Some priority => ["    priority=" +++ str priority]
      | None => []
      end)
  ++ (match dict_get ap_config "mode" with
      | Some mode => if eq_str mode "adhoc" then ["    mode=1"] else []
      | None => []
      end)
  ++ (match dict_get ap_config "auth" with
      | Some auth => if eq_str auth "open" then ["    key_mgmt=NONE"] else []
      | None => []
      end)
  ++ ["}"; ""].

(** An access point as the data model has it: a mapping whose password,
    when there is one, is a string. *)
Definition valid_ap (ap_config : yaml) : bool :=
  match ap_config with
  | YMap m =>
      match dict_get m "password" with
      | None | Some (YStr _) => true
      | Some _ => false
      end
  | _ => false
  end.

(** The [network={...}] block of a valid access point. *)
Definition ap_block (ap : string * yaml) : list string :=
  match ap with
  | (ssid, YMap m) =>
      ["network={"; "    ssid=" +++ dq +++ ssid +++ dq]
      ++ (match dict_get m "password" with
          | Some (YStr password) => [psk_line password]
          | _ => []
          end)
      ++ ap_options m
  | _ => []
  end.

(** The text of a valid wireless-credential document. *)
Definition wpa_document (access_points : dict yaml) : string :=
  str_join nl (["update_config=1"; ""] ++ flat_map ap_block access_points).

Definition is_map (v : yaml) : bool :=
  match v with YMap _ => true | _ => false end.

Definition is_str (v : yaml) : bool :=
  match v with YStr _ => true | _ => false end.

(** The two lines of a route that has both [to] and [via]; nothing for a
    route that misses one of them. *)
Definition route_lines (route : yaml) : list string :=
  match route with
  | YMap r =>
      match dict_get r "to", dict_get r "via" with
      | Some to, Some via =>
          ["    up route add -net " +++ str to +++ " gw " +++ str via;
           "    down route del -net " +++ str to +++ " gw " +++ str via]
      | _, _ => []
      end
  | _ => []
  end.

(** A static address as the data model has it: a string, either without
    [/] or of the form [ip/prefix] with a prefix length from 0 to 32. *)
Definition valid_address (addr : yaml) : bool :=
  match addr with
  | YStr s =>
      match str_split "/" s with
      | [_] => true
      | [_; prefix] =>
          match int_of_str prefix with
          | Some n => (0 <=? n) && (n <=? 32)
          | None => false
          end
      | _ => false
      end
  | _ => false
  end.

(** The lines of one valid static address. *)
Definition address_lines (addr : yaml) : list string :=
  match addr with
  | YStr s =>
      match str_split "/" s with
      | [ip; prefix] =>
          match int_of_str prefix with
          | Some n => ["    address " +++ ip;
                       "    netmask " +++ dotted_quad (prefix_mask n)]
          | None => []
          end
      | _ => ["    address " +++ s]
      end
  | _ => []
  end.

Definition gateway_lines (iface_config : dict yaml) : list string :=
  match dict_get iface_config "gateway4" with
  | Some gateway4 => ["    gateway " +++ str gateway4]
  | None => []
  end.

Definition dns_lines (iface_config : dict yaml) : list string :=
  match dict_get iface_config "nameservers" with
  | Some (YMap nameservers) =>
      match dict_get nameservers "addresses" with
      | Some (YList l) => ["    dns-nameservers " +++ str_join " " (map str l)]
      | _ => []
      end
  | _ => []
  end.

(** The three addressing modes. *)
Definition uses_dhcp4 (iface_config : dict yaml) : bool :=
  match dict_get iface_config "dhcp4" with
  | Some dhcp4 => truthy dhcp4
  | None => false
  end.

Definition static_addresses (iface_config : dict yaml) : list yaml :=
  match dict_get iface_config "addresses" with
  | Some (YList l) => l
  | _ => []
  end.

Inductive mode : Type := Dhcp | Static | Manual.

Definition addressing_mode (iface_config : dict yaml) : mode :=
  if uses_dhcp4 iface_config then Dhcp
  else match static_addresses iface_config with
       | [] => Manual
       | _ :: _ => Static
       end.

Definition addressing_lines (iface_name : string) (iface_config : dict yaml)
  : list string :=
  match addressing_mode iface_config with
  | Dhcp => ["iface " +++ iface_name +++ " inet dhcp"]
  | Static =>
      ["iface " +++ iface_name +++ " inet static"]
      ++ flat_map address_lines (static_addresses iface_config)
      ++ gateway_lines iface_config ++ dns_lines iface_config
  | Manual => ["iface " +++ iface_name +++ " inet manual"]
  end.

Definition wpa_conf_line (iface_name : string) : string :=
  "    wpa-conf /etc/wpa_supplicant/wpa_supplicant-" +++ iface_name +++ ".conf".

Definition wpa_lines (iface_name : string) (iface_config : dict yaml)
  (is_wifi : bool) : list string :=
  if is_wifi && dict_mem iface_config "access-points"
  then ["    wpa-driver wext"; wpa_conf_line iface_name]
  else [].

Definition mtu_lines (iface_config : dict yaml) : list string :=
  match dict_get iface_config "mtu" with
  | Some mtu => ["    mtu " +++ str mtu]
  | None => []
  end.

Definition routes_lines (iface_config : dict yaml) : list string :=
  match dict_get iface_config "routes" with
  | Some (YList l) => flat_map route_lines l
  | _ => []
  end.

(** The block of a valid interface, without its closing blank line. *)
Definition interface_block (iface_name : string) (iface_config : dict yaml)
  (is_wifi : bool) : list string :=
  ["auto " +++ iface_name]
  ++ addressing_lines iface_name iface_config
  ++ wpa_lines iface_name iface_config is_wifi
  ++ mtu_lines iface_config
  ++ routes_lines iface_config.

(** The credential documents after a valid interface has been processed. *)
Definition wpa_configs_after (iface_name : string) (iface_config : dict yaml)
  (is_wifi : bool) (wpa : dict string) : dict string :=
  if is_wifi then
    match dict_get iface_config "access-points" with
    | Some (YMap access_points) =>
        dict_set wpa iface_name (wpa_document access_points)
    | _ => wpa
    end
  else wpa.

(** An interface spec as the data model has it: a mapping whose
    [addresses], [nameservers.addresses], [routes] and [access-points], when
    present, are a sequence of valid addresses, a sequence of strings, a
    sequence of mappings and a mapping of valid access points. *)
Definition valid_addresses (m : dict yaml) : bool :=
  match dict_get m "addresses" with
  | None => true
  | Some (YList l) => forallb valid_address l
  | Some _ => false
  end.

Definition valid_nameservers (m : dict yaml) : bool :=
  match dict_get m "nameservers" with
  | None => true
  | Some (YMap nameservers) =>
      match dict_get nameservers "addresses" with
      | None => true
      | Some (YList l) => forallb is_str l
      | Some _ => false
      end
  | Some _ => false
  end.

Definition valid_routes (m : dict yaml) : bool :=
  match dict_get m "routes" with
  | None => true
  | Some (YList l) => forallb is_map l
  | Some _ => false
  end.

Definition valid_access_points (m : dict yaml) : bool :=
  match dict_get m "access-points" with
  | None => true
  | Some (YMap access_points) => forallb valid_ap (map snd access_points)
  | Some _ => false
  end.

Definition valid_interface (iface_config : yaml) : bool :=
  match iface_config with
  | YMap m =>
      valid_addresses m && valid_nameservers m && valid_routes m
      && valid_access_points m
  | _ => false
  end.

(** [elif addresses:] of the source. *)
Definition has_addresses (iface_config : dict yaml) : bool :=
  match dict_get iface_config "addresses" with
  | Some addresses => truthy addresses
  | None => false
  end.




(** The blocks of the interfaces of one mapping, in its order, each with
    its closing blank line; the key [renderer] is not an interface. *)
Definition mapping_blocks (is_wifi : bool) (entries : dict yaml) : list string :=
  flat_map (fun entry : string * yaml =>
              if String.eqb (fst entry) "renderer" then []
              else match snd entry with
                   | YMap m => interface_block (fst entry) m is_wifi ++ [""]
                   | _ => []
                   end) entries.

(** The credential documents after the interfaces of one mapping. *)
Definition mapping_wpa (is_wifi : bool) (entries : dict yaml) (wpa : dict string)
  : dict string :=
  fold_left (fun wpa (entry : string * yaml) =>
               if String.eqb (fst entry) "renderer" then wpa
               else match snd entry with
                    | YMap m => wpa_configs_after (fst entry) m is_wifi wpa
                    | _ => wpa
                    end) entries wpa.

Definition valid_mapping (entries : dict yaml) : bool :=
  forallb (fun entry : string * yaml =>
             String.eqb (fst entry) "renderer" || valid_interface (snd entry))
    entries.

(** The network section: under the key [network], or the document itself. *)
Definition network_of (top : dict yaml) : yaml :=
  match dict_get top "network" with
  | Some network => network
  | None => YMap top
  end.

Definition section_entries (network : dict yaml) (key : string) : dict yaml :=
  match dict_get network key with
  | Some (YMap entries) => entries
  | _ => []
  end.

Definition valid_section (network : dict yaml) (key : string) : bool :=
  match dict_get network key with
  | None => true
  | Some (YMap entries) => valid_mapping entries
  | Some _ => false
  end.

Definition version_ok (top : dict yaml) : bool :=
  match dict_get top "version" with
  | None => true
  | Some version => eq_int version 2
  end.

(** A configuration document as the data model has it. *)
Definition valid_config (cfg : yaml) : bool :=
  match cfg with
  | YMap top =>
      version_ok top
      && match network_of top with
         | YMap network =>
             valid_section network "ethernets" && valid_section network "wifis"
         | _ => false
         end
  | _ => false
  end.

Definition loopback_block : list string :=
  ["auto lo"; "iface lo inet loopback"; ""].

Definition default_eth0_block : list string :=
  ["auto eth0"; "iface eth0 inet dhcp"; ""].

(** The lines of the interfaces file of a valid document. *)
Definition interfaces_lines (network : dict yaml) : list string :=
  loopback_block
  ++ mapping_blocks false (section_entries network "ethernets")
  ++ (if dict_mem (section_entries network "ethernets") "eth0"
      then [] else default_eth0_block)
  ++ mapping_blocks true (section_entries network "wifis").


(** A method body that only appends to [interfaces_content], whether it
    returns or raises. *)
Definition grows {A} (m : M A) : Prop :=
  forall self, exists ext,
    interfaces_content (snd (m self)) = interfaces_content self ++ ext.

(** A method body that leaves [wpa_configs] alone, whether it returns or
    raises. *)
Definition keeps_wpa {A} (m : M A) : Prop :=
  forall self, wpa_configs (snd (m self)) = wpa_configs self.

(** A method body whose result, when it returns, is the text of
    [interfaces_content] and the credential documents. *)
Definition reports (m : M (string * dict string)) : Prop :=
  forall self,
    match m self with
    | (Ok (text, wpa), self') =>
        text = str_join nl (interfaces_content self') /\ wpa = wpa_configs self'
    | (Raise _, _) => True
    end.




(** A result that is not the version error of [convert]. *)
Definition plain {A} (r : result A) : Prop :=
  forall msg, r <> Raise (ValueError_msg msg).


(** The key [renderer] is not an interface. *)
Definition is_interface (entry : string * yaml) : bool :=
  negb (String.eqb (fst entry) "renderer").

(** A call that changes the file system. *)
Definition is_fs (a : action) : bool :=
  match a with
  | Mkdir _ _ _ | WriteFile _ _ | Chmod _ _ => true
  | _ => false
  end.

(** What a dry run prints. *)
Definition dry_run_report (interfaces_content : string)
  (wpa_configs : dict string) : list action :=
  [Print Stdout rule; Print Stdout "Generated /etc/network/interfaces:";
   Print Stdout rule; Print Stdout interfaces_content; Print Stdout ""]
  ++ flat_map (fun entry : string * string =>
       [Print Stdout rule;
        Print Stdout ("Generated /etc/wpa_supplicant/wpa_supplicant-"
                      +++ fst entry +++ ".conf:");
        Print Stdout rule; Print Stdout (snd entry); Print Stdout ""])
     wpa_configs.

(** Where the files go. *)
Definition interfaces_path (output_dir : option string) : path :=
  match output_dir with
  | Some dir => if given output_dir then PathJoin (Path dir) "interfaces"
                else Path "/etc/network/interfaces"
  | None => Path "/etc/network/interfaces"
  end.

Definition wpa_dir (output_dir : option string) : path :=
  match output_dir with
  | Some dir => if given output_dir then PathJoin (Path dir) "wpa_supplicant"
                else Path "/etc/wpa_supplicant"
  | None => Path "/etc/wpa_supplicant"
  end.

Definition wpa_path (output_dir : option string) (iface_name : string) : path :=
  PathJoin (wpa_dir output_dir) ("wpa_supplicant-" +++ iface_name +++ ".conf").

Definition directories (output_dir : option string) : list action :=
  match output_dir with
  | Some dir => if given output_dir
                then [Mkdir (Path dir) true true;
                      Mkdir (PathJoin (Path dir) "wpa_supplicant") false true]
                else [Mkdir (Path "/etc/wpa_supplicant") true true]
  | None => [Mkdir (Path "/etc/wpa_supplicant") true true]
  end.

(** The calls of a complete run of [write_output_files] that writes. *)
Definition write_plan (interfaces_content : string) (wpa_configs : dict string)
  (output_dir : option string) : list action :=
  directories output_dir
  ++ [PrintWriting (interfaces_path output_dir);
      WriteFile (interfaces_path output_dir) interfaces_content]
  ++ flat_map (fun entry : string * string =>
       [PrintWriting (wpa_path output_dir (fst entry));
        WriteFile (wpa_path output_dir (fst entry)) (snd entry);
        Chmod (wpa_path output_dir (fst entry)) mode_0o600])
     wpa_configs
  ++ [Print Stdout "Configuration files written successfully!"].




(** [m] makes the calls of [plan], in order, and returns [v]; or one of
    its calls to the file system raises, and that call is its last. *)
Definition performs {A} (m : IO A) (plan : list action) (v : A) : Prop :=
  forall trace,
    match m trace with
    | (Done a, trace') => a = v /\ trace' = trace ++ plan
    | (Failed f, trace') =>
        f = OSError
        /\ exists before a rest,
             plan = before ++ a :: rest
             /\ trace' = trace ++ before ++ [a]
             /\ is_fs a = true
    end.

(* ================================================================== *)
(** * Properties *)
(* ================================================================== *)

(** ** Generic facts: the exception monad, loops, dictionaries *)

(** A loop whose body appends [f x] on the elements it visits appends the
    concatenation of these increments. *)
Lemma for_acc_flat_map {A} (step : list string -> A -> result (list string))
  (f : A -> list string) (l : list A) :
  (forall x, In x l -> forall acc, step acc x = Ok (acc ++ f x)) ->
  forall acc, for_acc step l acc = Ok (acc ++ flat_map f l).
Proof.
  induction l as [|x l IH]; intros Hstep acc; simpl.
  - now rewrite app_nil_r.
  - rewrite (Hstep x (or_introl eq_refl)). simpl.
    rewrite IH by (intros y Hy; apply Hstep; now right).
    now rewrite <- app_assoc.
Qed.








(** ** Strings *)

Lemma str_split_not_nil c s : str_split c s <> [].
Proof.
  destruct s as [|c' s]; simpl; [discriminate|].
  destruct (Ascii.eqb c' c); [discriminate|].
  destruct (str_split c s); discriminate.
Qed.

(** ['/' in s] holds exactly when [s.split('/')] has more than one part. *)
Lemma str_contains_split c s :
  str_contains (String c EmptyString) s
  = match str_split c s with [_] => false | _ => true end.
Proof.
  induction s as [|c' s IH].
  - reflexivity.
  - cbn [str_contains str_split String.prefix].
    rewrite IH. rewrite (Ascii.eqb_sym c' c).
    destruct (ascii_dec c c') as [->|Hne].
    + rewrite Ascii.eqb_refl.
      assert (String.prefix "" s = true) as -> by now destruct s.
      pose proof (str_split_not_nil c' s).
      destruct (str_split c' s); [contradiction|reflexivity].
    + destruct (Ascii.eqb_spec c c') as [->|_]; [contradiction|].
      cbn. pose proof (str_split_not_nil c s).
      destruct (str_split c s) as [|hd [|? ?]]; [contradiction|reflexivity..].
Qed.

Lemma str_split_single c s x : str_split c s = [x] -> x = s.
Proof.
  revert x. induction s as [|c' s IH]; intros x; simpl.
  - now intros [= <-].
  - destruct (Ascii.eqb c' c).
    + pose proof (str_split_not_nil c s).
      destruct (str_split c s); [contradiction|discriminate].
    + pose proof (str_split_not_nil c s).
      destruct (str_split c s) as [|hd [|? ?]] eqn:E;
        [contradiction| |discriminate].
      intros [= <-]. f_equal. now apply IH.
Qed.

(** ** [_cidr_to_netmask] *)

Lemma shift_mask_eq (k : Z) :
  0 <= k <= 32 -> Z.shiftl (Z.shiftr 0xffffffff k) k = 2 ^ 32 - 2 ^ k.
Proof.
  intros Hk.
  rewrite Z.shiftr_div_pow2, Z.shiftl_mul_pow2 by lia.
  assert (Hpow : 2 ^ 32 = 2 ^ (32 - k) * 2 ^ k).
  { rewrite <- Z.pow_add_r by lia. f_equal. lia. }
  assert (Hb : 0 < 2 ^ k) by (apply Z.pow_pos_nonneg; lia).
  assert (Hdiv : 0xffffffff / 2 ^ k = 2 ^ (32 - k) - 1).
  { symmetry. apply Z.div_unique with (r := 2 ^ k - 1); [lia|].
    change 0xffffffff with (2 ^ 32 - 1). rewrite Hpow. ring. }
  rewrite Hdiv, Hpow. ring.
Qed.

Lemma cidr_to_netmask_ok (p : Z) :
  p <= 32 ->
  _cidr_to_netmask p
  = Ok (dotted_quad (Z.shiftl (Z.shiftr 0xffffffff (32 - p)) (32 - p))).
Proof.
  intros Hp. unfold _cidr_to_netmask.
  destruct (Z.ltb_spec (32 - p) 0) as [Hneg|_]; [lia|].
  cbv zeta. f_equal. unfold dotted_quad, str_join. cbn [String.concat].
  change 0xff with (Z.ones 8).
  rewrite !Z.land_ones, !Z.shiftr_div_pow2 by lia.
  reflexivity.
Qed.

(** A prefix length above 32 makes the shift count negative. *)
Lemma cidr_to_netmask_out_of_range (p : Z) :
  32 < p -> _cidr_to_netmask p = Raise ValueError.
Proof.
  intros Hp. unfold _cidr_to_netmask.
  destruct (Z.ltb_spec (32 - p) 0); [reflexivity|lia].
Qed.

(** C3.  For a prefix length between 0 and 32 the mask is
    [(0xFFFFFFFF >> (32-p)) << (32-p)], that is the 32-bit word whose [p]
    leading bits are set, and the result is its four octets in decimal,
    most significant first, separated by dots; in particular the prefixes
    24, 16, 32 and 0 give 255.255.255.0, 255.255.0.0, 255.255.255.255 and
    0.0.0.0. *)
Theorem cidr_to_netmask_spec (p : Z) :
  0 <= p <= 32 ->
  let mask := Z.shiftl (Z.shiftr 0xffffffff (32 - p)) (32 - p) in
  mask = prefix_mask p
  /\ _cidr_to_netmask p = Ok (dotted_quad mask)
  /\ _cidr_to_netmask 24 = Ok "255.255.255.0"
  /\ _cidr_to_netmask 16 = Ok "255.255.0.0"
  /\ _cidr_to_netmask 32 = Ok "255.255.255.255"
  /\ _cidr_to_netmask 0 = Ok "0.0.0.0".
Proof.
  intros Hp mask. subst mask. split; [|split].
  - unfold prefix_mask. apply shift_mask_eq. lia.
  - apply cidr_to_netmask_ok. lia.
  - repeat split; reflexivity.
Qed.

Lemma cidr_to_netmask_spec_witness :
  0 <= 20 <= 32 /\ _cidr_to_netmask 20 = Ok "255.255.240.0".
Proof.
  split; [lia|].
  rewrite (proj1 (proj2 (cidr_to_netmask_spec 20 ltac:(lia)))).
  reflexivity.
Defined.

(** ** [_generate_wpa_supplicant_config] *)

(** [c in '0123456789abcdefABCDEF'] for a character [c]. *)
Lemma hex_alphabet_char (c : ascii) :
  str_contains (String c EmptyString) hex_alphabet = is_hex_char c.
Proof.
  destruct c as [[] [] [] [] [] [] [] []]; reflexivity.
Qed.

Lemma all_in_hex_chars (l : list ascii) :
  all_in hex_alphabet (map YStr (map (fun c => String c EmptyString) l))
  = Ok (forallb is_hex_char l).
Proof.
  induction l as [|c l IH]; [reflexivity|].
  cbn [map all_in forallb]. rewrite hex_alphabet_char.
  destruct (is_hex_char c); [exact IH|reflexivity].
Qed.

(** The password test of the source, on a string of [n] characters. *)
Lemma password_test (password : string) :
  (if Z.of_nat (String.length password) =? 64
   then l <-? iter (YStr password) ; all_in hex_alphabet l
   else Ok false)
  = Ok (is_prehashed password).
Proof.
  unfold is_prehashed. cbn [rbind iter]. unfold chars.
  rewrite all_in_hex_chars.
  destruct (Z.eqb_spec (Z.of_nat (String.length password)) 64) as [E|E];
    destruct (Nat.eqb_spec (String.length password) 64) as [E'|E'];
    try reflexivity; lia.
Qed.

(** Normalises the list an accumulating section returns. *)
Ltac list_norm := repeat rewrite <- app_assoc; cbn [app]; try reflexivity.

(** The loop body on a valid access point appends its block. *)
Lemma network_block_valid (ap : string * yaml) :
  valid_ap (snd ap) = true ->
  forall acc, network_block acc ap = Ok (acc ++ ap_block ap).
Proof.
  destruct ap as [ssid [| | | | |m]]; cbn [snd valid_ap]; try discriminate.
  intros Hvalid acc.
  unfold network_block, ap_block, ap_options.
  cbn [contains get getitem rbind len]. unfold dict_mem.
  destruct (dict_get m "password") as [[| | |password| |]|];
    try discriminate; cbn [rbind len];
    try rewrite password_test; unfold psk_line; cbn [rbind];
    destruct (dict_get m "hidden") as [hidden|]; cbn [truthy];
    destruct (dict_get m "priority") as [priority|]; cbn [rbind];
    destruct (dict_get m "mode") as [mode|]; cbn [eq_str String.eqb Ascii.eqb Bool.eqb];
    destruct (dict_get m "auth") as [auth|]; cbn [rbind];
    repeat match goal with
      | |- context [if ?b then _ else _] => destruct b
      end; cbn [rbind]; list_norm.
Qed.


Lemma length_append (s t : string) :
  String.length (s +++ t) = (String.length s + String.length t)%nat.
Proof. induction s; simpl; congruence. Qed.

Lemma quoted_not_bare (password : string) :
  "    psk=" +++ dq +++ password +++ dq <> "    psk=" +++ password.
Proof.
  intros H. apply (f_equal String.length) in H.
  rewrite !length_append in H. simpl in H. lia.
Qed.


(** A valid mapping of access points gives its document. *)
Lemma generate_wpa_supplicant_config_valid (access_points : dict yaml) :
  forallb valid_ap (map snd access_points) = true ->
  _generate_wpa_supplicant_config (YMap access_points)
  = Ok (wpa_document access_points).
Proof.
  intros Hvalid. unfold _generate_wpa_supplicant_config, wpa_document.
  cbn [items rbind].
  rewrite (for_acc_flat_map network_block ap_block); [reflexivity|].
  intros ap Hin acc. apply network_block_valid.
  rewrite forallb_forall in Hvalid. apply Hvalid. now apply in_map.
Qed.





(** ** Routes *)

Lemma route_step_map (r : dict yaml) (acc : list string) :
  route_step acc (YMap r) = Ok (acc ++ route_lines (YMap r)).
Proof.
  unfold route_step, route_lines. cbn [contains getitem rbind]. unfold dict_mem.
  destruct (dict_get r "to") as [to|]; cbn [rbind];
    [destruct (dict_get r "via") as [via|]; cbn [rbind]|];
    list_norm; now rewrite app_nil_r.
Qed.

Lemma route_directives_valid (m : dict yaml) (acc : list string) :
  valid_routes m = true ->
  route_directives (YMap m) acc = Ok (acc ++ routes_lines m).
Proof.
  unfold valid_routes, route_directives, routes_lines.
  cbn [contains getitem rbind]. unfold dict_mem.
  destruct (dict_get m "routes") as [[| | | |l|]|]; try discriminate;
    cbn [rbind iter]; [|now rewrite app_nil_r].
  intros Hvalid. apply for_acc_flat_map.
  intros route Hin acc'. rewrite forallb_forall in Hvalid.
  specialize (Hvalid route Hin). destruct route; try discriminate.
  apply route_step_map.
Qed.



(** ** Addressing *)

Lemma address_step_valid (addr : yaml) (acc : list string) :
  valid_address addr = true ->
  address_step acc addr = Ok (acc ++ address_lines addr).
Proof.
  destruct addr as [| | |s| |]; cbn [valid_address]; try discriminate.
  unfold address_step, address_lines. cbn [contains split rbind str].
  rewrite str_contains_split.
  destruct (str_split "/" s) as [|ip [|prefix [|? ?]]] eqn:Hsplit;
    try discriminate.
  - intros _. reflexivity.
  - destruct (int_of_str prefix) as [n|]; [|discriminate].
    intros Hn. apply andb_true_iff in Hn. destruct Hn as [H0 H32].
    apply Z.leb_le in H0, H32.
    rewrite cidr_to_netmask_ok by lia. cbn [rbind].
    rewrite shift_mask_eq by lia. unfold prefix_mask. list_norm.
Qed.

Lemma all_str_valid (l : list yaml) :
  forallb is_str l = true -> all_str l = Ok (map str l).
Proof.
  induction l as [|v l IH]; [reflexivity|].
  cbn [forallb]. intros H. apply andb_true_iff in H. destruct H as [Hv Hl].
  destruct v; try discriminate. cbn [all_str map str]. now rewrite IH.
Qed.

Lemma addressing_valid (iface_name : string) (m : dict yaml) (acc : list string) :
  valid_addresses m = true -> valid_nameservers m = true ->
  addressing iface_name (YMap m) acc
  = Ok (acc ++ addressing_lines iface_name m).
Proof.
  unfold valid_addresses, valid_nameservers, addressing, addressing_lines,
    addressing_mode, uses_dhcp4, static_addresses, gateway_lines, dns_lines.
  cbn [get rbind contains getitem]. unfold dict_mem.
  intros Haddr Hns.
  destruct (dict_get m "dhcp4") as [dhcp4|];
    [destruct (truthy dhcp4); [reflexivity|]|]; cbn [truthy].
  all: destruct (dict_get m "addresses") as [[| | | |[|a l]|]|];
    try discriminate; try reflexivity; cbn [truthy rbind iter].
  all: rewrite (for_acc_flat_map address_step address_lines)
    by (intros x Hx acc'; apply address_step_valid;
        rewrite forallb_forall in Haddr; now apply Haddr);
    cbn [rbind].
  all: destruct (dict_get m "gateway4") as [gateway4|]; cbn [rbind].
  all: destruct (dict_get m "nameservers") as [[| | | | |ns]|];
    try discriminate; cbn [rbind contains getitem]; unfold dict_mem;
    try (destruct (dict_get ns "addresses") as [[| | | |dns|]|];
         try discriminate; cbn [rbind]; unfold join; cbn [iter rbind];
         try rewrite all_str_valid by assumption; cbn [rbind]).
  all: list_norm; rewrite ?app_nil_r; list_norm.
Qed.

(** ** One interface block *)

Lemma mtu_directive_map (m : dict yaml) (acc : list string) :
  mtu_directive (YMap m) acc = Ok (acc ++ mtu_lines m).
Proof.
  unfold mtu_directive, mtu_lines. cbn [contains getitem rbind]. unfold dict_mem.
  destruct (dict_get m "mtu"); cbn [rbind]; [reflexivity|now rewrite app_nil_r].
Qed.

Lemma wifi_directives_valid (iface_name : string) (m : dict yaml) (is_wifi : bool)
  (acc : list string) (self : NetplanConverter) :
  valid_access_points m = true ->
  wifi_directives iface_name (YMap m) is_wifi acc self
  = (Ok (acc ++ wpa_lines iface_name m is_wifi),
     mkConverter (config self) (interfaces_content self)
       (wpa_configs_after iface_name m is_wifi (wpa_configs self))).
Proof.
  unfold valid_access_points, wifi_directives, wpa_lines, wpa_configs_after,
    wpa_conf_line, bind, lift, ret, wpa_configs_setitem.
  destruct is_wifi; cbn [andb contains getitem]; unfold dict_mem.
  - destruct (dict_get m "access-points") as [[| | | | |aps]|];
      try discriminate.
    + intros Hvalid. rewrite generate_wpa_supplicant_config_valid by assumption.
      cbn. list_norm.
    + intros _. rewrite app_nil_r. now destruct self.
  - intros _. rewrite app_nil_r. now destruct self.
Qed.

(** Total correctness of [_add_interface_config] on a valid interface
    spec: the call returns, it appends the block and a blank line, and it
    registers the credential document of a wireless interface. *)
Lemma add_interface_config_valid (iface_name : string) (m : dict yaml)
  (is_wifi : bool) (self : NetplanConverter) :
  valid_interface (YMap m) = true ->
  _add_interface_config iface_name (YMap m) is_wifi self
  = (Ok tt,
     mkConverter (config self)
       (interfaces_content self ++ interface_block iface_name m is_wifi ++ [""])
       (wpa_configs_after iface_name m is_wifi (wpa_configs self))).
Proof.
  cbn [valid_interface]. intros Hvalid.
  apply andb_true_iff in Hvalid. destruct Hvalid as [Hvalid Haps].
  apply andb_true_iff in Hvalid. destruct Hvalid as [Hvalid Hroutes].
  apply andb_true_iff in Hvalid. destruct Hvalid as [Haddr Hns].
  unfold _add_interface_config, bind, lift.
  rewrite addressing_valid by assumption.
  rewrite wifi_directives_valid by assumption.
  rewrite mtu_directive_map.
  rewrite route_directives_valid by assumption.
  unfold interfaces_content_append, interfaces_content_extend, interface_block.
  cbn [config interfaces_content wpa_configs].
  f_equal. f_equal. list_norm.
Qed.

(** ** Which lines a block holds *)

Lemma prefix_append (p s : string) : String.prefix p (p +++ s) = true.
Proof.
  induction p as [|a p IH]; simpl.
  - now destruct s.
  - destruct (ascii_dec a a); [exact IH|contradiction].
Qed.



Lemma Forall_flat_map {A B} (P : B -> Prop) (f : A -> list B) (l : list A) :
  (forall x, Forall P (f x)) -> Forall P (flat_map f l).
Proof.
  intros H. induction l as [|x l IH]; simpl; [constructor|].
  apply Forall_app. split; [apply H|exact IH].
Qed.






(** ** Addressing precedence *)








(** ** Lines that a section cannot hold *)





Section OtherLines.

Variable test : string -> bool.
Variable iface_name : string.
Variable m : dict yaml.
Variable is_wifi : bool.

Hypothesis test_iface : forall s, test ("iface " +++ s) = false.
Hypothesis test_address : forall s, test ("    address " +++ s) = false.
Hypothesis test_netmask : forall s, test ("    netmask " +++ s) = false.
Hypothesis test_mtu : forall s, test ("    mtu " +++ s) = false.
Hypothesis test_up : forall s, test ("    up route add -net " +++ s) = false.
Hypothesis test_down : forall s, test ("    down route del -net " +++ s) = false.




Hypothesis test_auto : forall s, test ("auto " +++ s) = false.


End OtherLines.

(** ** Gateway and name servers *)











(** ** Wireless interfaces *)







(** ** The whole translation *)

Lemma wpa_configs_after_ethernet (iface_name : string) (m : dict yaml)
  (wpa : dict string) :
  wpa_configs_after iface_name m false wpa = wpa.
Proof. reflexivity. Qed.

(** The loop of [_process_ethernets] and [_process_wifis] on valid
    entries. *)
Lemma process_entries_valid (is_wifi : bool) (entries : dict yaml) :
  valid_mapping entries = true ->
  forall self,
    for_each entries
      (fun '(iface_name, iface_config) =>
         if String.eqb iface_name "renderer" then ret tt
         else _add_interface_config iface_name iface_config is_wifi) self
    = (Ok tt,
       mkConverter (config self)
         (interfaces_content self ++ mapping_blocks is_wifi entries)
         (mapping_wpa is_wifi entries (wpa_configs self))).
Proof.
  induction entries as [|[iface_name iface_config] entries IH];
    intros Hvalid self.
  - cbn. rewrite app_nil_r. now destruct self.
  - cbn [valid_mapping forallb fst snd] in Hvalid.
    apply andb_true_iff in Hvalid. destruct Hvalid as [Hentry Hrest].
    cbn [for_each mapping_blocks mapping_wpa flat_map fold_left fst snd].
    unfold bind at 1.
    destruct (String.eqb iface_name "renderer") eqn:Hname.
    + unfold ret at 1. rewrite (IH Hrest). reflexivity.
    + cbn [orb] in Hentry. destruct iface_config as [| | | | |m];
        try discriminate.
      rewrite add_interface_config_valid by assumption.
      rewrite (IH Hrest). cbn [config interfaces_content wpa_configs].
      f_equal. f_equal. now rewrite <- !app_assoc.
Qed.

Lemma mapping_wpa_ethernets (entries : dict yaml) (wpa : dict string) :
  mapping_wpa false entries wpa = wpa.
Proof.
  revert wpa. induction entries as [|[n c] entries IH]; intros wpa;
    [reflexivity|].
  cbn [mapping_wpa fold_left fst snd].
  destruct (String.eqb n "renderer"); [apply IH|].
  destruct c; apply IH.
Qed.

Lemma process_ethernets_valid (entries : dict yaml) (self : NetplanConverter) :
  valid_mapping entries = true ->
  _process_ethernets (YMap entries) self
  = (Ok tt,
     mkConverter (config self)
       (interfaces_content self ++ mapping_blocks false entries)
       (wpa_configs self)).
Proof.
  intros Hvalid. unfold _process_ethernets, bind, lift. cbn [items].
  rewrite (process_entries_valid false entries Hvalid).
  now rewrite mapping_wpa_ethernets.
Qed.

Lemma process_wifis_valid (entries : dict yaml) (self : NetplanConverter) :
  valid_mapping entries = true ->
  _process_wifis (YMap entries) self
  = (Ok tt,
     mkConverter (config self)
       (interfaces_content self ++ mapping_blocks true entries)
       (mapping_wpa true entries (wpa_configs self))).
Proof.
  intros Hvalid. unfold _process_wifis, bind, lift. cbn [items].
  now rewrite (process_entries_valid true entries Hvalid).
Qed.

(** Total correctness of [convert] on a valid document. *)
Lemma convert_valid (top network : dict yaml) :
  valid_config (YMap top) = true ->
  network_of top = YMap network ->
  run_convert (YMap top)
  = (Ok (str_join nl (interfaces_lines network),
         mapping_wpa true (section_entries network "wifis") []),
     mkConverter (YMap top) (interfaces_lines network)
       (mapping_wpa true (section_entries network "wifis") [])).
Proof.
  cbn [valid_config]. intros Hvalid Hnet. rewrite Hnet in Hvalid.
  rewrite !andb_true_iff in Hvalid. destruct Hvalid as [Hversion [Heth Hwifi]].
  assert (Hv : eq_int (match dict_get top "version" with
                       | Some x => x | None => YInt 2 end) 2 = true).
  { unfold version_ok in Hversion. now destruct (dict_get top "version"). }
  unfold run_convert, convert, __init__, bind, lift, ret, self_config,
    self_interfaces_content, self_wpa_configs, interfaces_content_extend.
  cbn [get config interfaces_content wpa_configs].
  rewrite Hv. cbn [negb get config interfaces_content wpa_configs app].
  fold (network_of top). rewrite Hnet. cbn [contains getitem].
  unfold interfaces_lines, section_entries, valid_section, dict_mem in *.
  destruct (dict_get network "ethernets") as [[| | | | |eths]|];
    try discriminate;
    [cbn [contains]; rewrite process_ethernets_valid by assumption;
     fold (dict_mem eths "eth0"); destruct (dict_mem eths "eth0")|];
    cbn [negb config interfaces_content wpa_configs];
    (destruct (dict_get network "wifis") as [[| | | | |wifis]|];
     try discriminate;
     [rewrite process_wifis_valid by assumption|]);
    cbn [negb config interfaces_content wpa_configs mapping_blocks mapping_wpa
         flat_map fold_left];
    unfold loopback_block, default_eth0_block;
    repeat rewrite <- app_assoc; cbn [app]; rewrite ?app_nil_r; reflexivity.
Qed.

(** ** The [auto] line of a block names its interface *)










(** ** The version check *)


(** C5, at the input where the source departs from it.  A document that
    wraps its sections under [network] and declares version 1 there is
    translated: [convert] reads [version] from the document, not from the
    network section it reads [ethernets] and [wifis] from. *)
Theorem version_under_network_unchecked :
  fst (run_convert
         (YMap [("network",
                 YMap [("version", YInt 1);
                       ("ethernets", YMap [("eth0", YMap [("dhcp4", YBool true)])])])]))
  = Ok (str_join nl ["auto lo"; "iface lo inet loopback"; "";
                     "auto eth0"; "iface eth0 inet dhcp"; ""],
        []).
Proof. reflexivity. Qed.

(* ================================================================== *)
(** * Further properties: any input *)
(* ================================================================== *)

(** The properties of this part hold for every value [yaml.safe_load] can
    return, valid or not. *)

(** ** Sections only append *)

(** Inverts a section that returned: every step of it returned. *)
Ltac inv_ok :=
  repeat match goal with
    | H : Ok _ = Ok _ |- _ => injection H as H; try subst
    | H : Raise _ = Ok _ |- _ => discriminate H
    | H : rbind ?r _ = Ok _ |- _ =>
        let E := fresh "E" in
        destruct r eqn:E; cbn [rbind] in H; [|discriminate H]
    | H : (if ?b then _ else _) = Ok _ |- _ => destruct b eqn:?
    | H : match ?x with _ => _ end = Ok _ |- _ =>
        destruct x eqn:?; try discriminate H
    end.

Ltac solve_ext :=
  first [ exists (@nil string); now rewrite app_nil_r
        | repeat rewrite <- app_assoc; eexists; reflexivity ].

Lemma for_acc_extends {A} (step : list string -> A -> result (list string))
  (l : list A) :
  (forall acc x r, step acc x = Ok r -> exists ext, r = acc ++ ext) ->
  forall acc r, for_acc step l acc = Ok r -> exists ext, r = acc ++ ext.
Proof.
  intros Hstep. induction l as [|x l IH]; intros acc r; cbn [for_acc].
  - intros [= <-]. solve_ext.
  - intros H. destruct (step acc x) as [acc'|e] eqn:E; cbn [rbind] in H;
      [|discriminate].
    destruct (Hstep _ _ _ E) as [e1 ->]. destruct (IH _ _ H) as [e2 ->].
    solve_ext.
Qed.

Lemma address_step_extends (acc : list string) (addr : yaml) (r : list string) :
  address_step acc addr = Ok r -> exists ext, r = acc ++ ext.
Proof.
  unfold address_step. intros H. inv_ok; solve_ext.
Qed.

Lemma route_step_extends (acc : list string) (route : yaml) (r : list string) :
  route_step acc route = Ok r -> exists ext, r = acc ++ ext.
Proof.
  unfold route_step. intros H. inv_ok; solve_ext.
Qed.

Lemma addressing_extends (iface_name : string) (iface_config : yaml)
  (acc r : list string) :
  addressing iface_name iface_config acc = Ok r -> exists ext, r = acc ++ ext.
Proof.
  unfold addressing. intros H. inv_ok;
    try match goal with
      | E : for_acc address_step _ _ = Ok _ |- _ =>
          destruct (for_acc_extends _ _ address_step_extends _ _ E) as [? ->]
      end; solve_ext.
Qed.

Lemma mtu_directive_extends (iface_config : yaml) (acc r : list string) :
  mtu_directive iface_config acc = Ok r -> exists ext, r = acc ++ ext.
Proof.
  unfold mtu_directive. intros H. inv_ok; solve_ext.
Qed.

Lemma route_directives_extends (iface_config : yaml) (acc r : list string) :
  route_directives iface_config acc = Ok r -> exists ext, r = acc ++ ext.
Proof.
  unfold route_directives. intros H. inv_ok;
    try match goal with
      | E : for_acc route_step _ _ = Ok _ |- _ =>
          destruct (for_acc_extends _ _ route_step_extends _ _ E) as [? ->]
      end; solve_ext.
Qed.

(** ** A block is appended whole or not at all *)

Lemma wifi_directives_outcome (iface_name : string) (iface_config : yaml)
  (is_wifi : bool) (acc : list string) (self : NetplanConverter) :
  match wifi_directives iface_name iface_config is_wifi acc self with
  | (Ok r, self') =>
      (exists ext, r = acc ++ ext)
      /\ config self' = config self
      /\ interfaces_content self' = interfaces_content self
      /\ (is_wifi = false -> wpa_configs self' = wpa_configs self)
  | (Raise _, self') => self' = self
  end.
Proof.
  unfold wifi_directives, bind, lift, ret, wpa_configs_setitem.
  destruct is_wifi.
  - destruct (contains "access-points" iface_config) as [[|]|]; try reflexivity.
    + destruct (getitem iface_config "access-points") as [aps|]; [|reflexivity].
      destruct (_generate_wpa_supplicant_config aps); [|reflexivity].
      cbn [config interfaces_content wpa_configs].
      repeat split; [solve_ext|discriminate].
    + repeat split. solve_ext.
  - repeat split. solve_ext.
Qed.

Lemma add_interface_config_outcome (iface_name : string) (iface_config : yaml)
  (is_wifi : bool) (self : NetplanConverter) :
  match _add_interface_config iface_name iface_config is_wifi self with
  | (Ok _, self') =>
      exists body,
        interfaces_content self'
        = interfaces_content self ++ ("auto " +++ iface_name) :: body ++ [""]
  | (Raise _, self') => interfaces_content self' = interfaces_content self
  end
  /\ config (snd (_add_interface_config iface_name iface_config is_wifi self))
     = config self
  /\ (is_wifi = false ->
      wpa_configs (snd (_add_interface_config iface_name iface_config is_wifi self))
      = wpa_configs self).
Proof.
  unfold _add_interface_config, bind, lift.
  destruct (addressing iface_name iface_config ([] ++ ["auto " +++ iface_name]))
    as [l1|] eqn:E1; [|now repeat split].
  destruct (addressing_extends _ _ _ _ E1) as [e1 ->].
  pose proof (wifi_directives_outcome iface_name iface_config is_wifi
                (([] ++ ["auto " +++ iface_name]) ++ e1) self) as Hw.
  destruct (wifi_directives iface_name iface_config is_wifi _ self)
    as [[l2|] self2]; [|now subst].
  destruct Hw as ([e2 ->] & Hconfig & Hcontent & Hwpa).
  destruct (mtu_directive iface_config _) as [l3|] eqn:E3; [|now repeat split].
  destruct (mtu_directive_extends _ _ _ E3) as [e3 ->].
  destruct (route_directives iface_config _) as [l4|] eqn:E4;
    [|now repeat split].
  destruct (route_directives_extends _ _ _ E4) as [e4 ->].
  unfold interfaces_content_append, interfaces_content_extend.
  cbn [config interfaces_content wpa_configs snd].
  split; [|split; [exact Hconfig|exact Hwpa]].
  rewrite Hcontent. exists (e1 ++ e2 ++ e3 ++ e4).
  repeat rewrite <- app_assoc. reflexivity.
Qed.

(** X1.  Whatever the interface spec, [_add_interface_config] either
    returns, and then it has appended to [interfaces_content] one block
    that starts with [auto <name>] and ends with a blank line, or raises,
    and then [interfaces_content] is as before: no partial block is ever
    left.  When an ethernet interface raises, the whole converter is as
    before. *)
Theorem interface_block_atomic (iface_name : string) (iface_config : yaml)
  (is_wifi : bool) (self : NetplanConverter) :
  match _add_interface_config iface_name iface_config is_wifi self with
  | (Ok _, self') =>
      exists body,
        interfaces_content self'
        = interfaces_content self ++ ("auto " +++ iface_name) :: body ++ [""]
  | (Raise _, self') =>
      interfaces_content self' = interfaces_content self
      /\ (is_wifi = false -> self' = self)
  end.
Proof.
  destruct (add_interface_config_outcome iface_name iface_config is_wifi self)
    as (Hcontent & Hconfig & Hwpa).
  destruct (_add_interface_config iface_name iface_config is_wifi self)
    as [[u|e] self']; [exact Hcontent|].
  split; [exact Hcontent|]. intros Hethernet.
  specialize (Hwpa Hethernet). cbn [snd] in Hconfig, Hwpa.
  destruct self, self'. cbn [config interfaces_content wpa_configs] in *.
  now subst.
Qed.

(** ** What a whole run appends and keeps *)

Lemma grows_ret {A} (a : A) : grows (ret a).
Proof. intros self. exists []. cbn. now rewrite app_nil_r. Qed.

Lemma grows_lift {A} (r : result A) : grows (lift r).
Proof. intros self. exists []. cbn. now rewrite app_nil_r. Qed.

Lemma grows_raise {A} (e : exn) : grows (@raise A e).
Proof. intros self. exists []. cbn. now rewrite app_nil_r. Qed.

Lemma grows_extend (lines : list string) : grows (interfaces_content_extend lines).
Proof. intros self. now exists lines. Qed.

Lemma grows_bind {A B} (m : M A) (k : A -> M B) :
  grows m -> (forall a, grows (k a)) -> grows (bind m k).
Proof.
  intros Hm Hk self. unfold bind. destruct (Hm self) as [e1 H1].
  destruct (m self) as [[a|e] self1]; cbn [snd] in *.
  - destruct (Hk a self1) as [e2 H2]. exists (e1 ++ e2).
    now rewrite H2, H1, app_assoc.
  - now exists e1.
Qed.

Lemma grows_for_each {A} (l : list A) (body : A -> M unit) :
  (forall x, grows (body x)) -> grows (for_each l body).
Proof.
  intros Hbody. induction l as [|x l IH]; cbn [for_each].
  - apply grows_ret.
  - apply grows_bind; [apply Hbody|intros _; exact IH].
Qed.

Lemma grows_add_interface_config (iface_name : string) (iface_config : yaml)
  (is_wifi : bool) :
  grows (_add_interface_config iface_name iface_config is_wifi).
Proof.
  intros self.
  destruct (add_interface_config_outcome iface_name iface_config is_wifi self)
    as [H _].
  destruct (_add_interface_config iface_name iface_config is_wifi self)
    as [[u|e] self']; cbn [snd].
  - destruct H as [body ->]. eexists. reflexivity.
  - exists []. now rewrite app_nil_r.
Qed.

Lemma grows_process_ethernets (ethernets : yaml) : grows (_process_ethernets ethernets).
Proof.
  unfold _process_ethernets. apply grows_bind; [apply grows_lift|].
  intros l. apply grows_for_each. intros [n c].
  destruct (String.eqb n "renderer");
    [apply grows_ret|apply grows_add_interface_config].
Qed.

Lemma grows_process_wifis (wifis : yaml) : grows (_process_wifis wifis).
Proof.
  unfold _process_wifis. apply grows_bind; [apply grows_lift|].
  intros l. apply grows_for_each. intros [n c].
  destruct (String.eqb n "renderer");
    [apply grows_ret|apply grows_add_interface_config].
Qed.

Lemma keeps_wpa_ret {A} (a : A) : keeps_wpa (ret a).
Proof. now intros self. Qed.

Lemma keeps_wpa_lift {A} (r : result A) : keeps_wpa (lift r).
Proof. now intros self. Qed.

Lemma keeps_wpa_bind {A B} (m : M A) (k : A -> M B) :
  keeps_wpa m -> (forall a, keeps_wpa (k a)) -> keeps_wpa (bind m k).
Proof.
  intros Hm Hk self. unfold bind. specialize (Hm self).
  destruct (m self) as [[a|e] self1]; cbn [snd] in *; [|exact Hm].
  now rewrite Hk.
Qed.

Lemma keeps_wpa_for_each {A} (l : list A) (body : A -> M unit) :
  (forall x, keeps_wpa (body x)) -> keeps_wpa (for_each l body).
Proof.
  intros Hbody. induction l as [|x l IH]; cbn [for_each].
  - apply keeps_wpa_ret.
  - apply keeps_wpa_bind; [apply Hbody|intros _; exact IH].
Qed.

(** X2.  [_process_ethernets] never touches the credential documents,
    whatever the ethernet section holds ([access-points] keys included) and
    whether it returns or raises. *)
Theorem ethernets_keep_wpa_configs (ethernets : yaml) (self : NetplanConverter) :
  wpa_configs (snd (_process_ethernets ethernets self)) = wpa_configs self.
Proof.
  revert self. change (keeps_wpa (_process_ethernets ethernets)).
  unfold _process_ethernets. apply keeps_wpa_bind; [apply keeps_wpa_lift|].
  intros l. apply keeps_wpa_for_each. intros [n c].
  destruct (String.eqb n "renderer"); [apply keeps_wpa_ret|].
  intros self.
  destruct (add_interface_config_outcome n c false self) as (_ & _ & Hwpa).
  now apply Hwpa.
Qed.

Lemma bind_run {A B} (m : M A) (k : A -> M B) (self : NetplanConverter) :
  bind m k self
  = match m self with
    | (Ok a, self') => k a self'
    | (Raise e, self') => (Raise e, self')
    end.
Proof. reflexivity. Qed.

Lemma reports_bind {A} (m : M A) (k : A -> M (string * dict string)) :
  (forall a, reports (k a)) -> reports (bind m k).
Proof.
  intros Hk self. rewrite bind_run.
  destruct (m self) as [[a|e] self1]; [apply Hk|exact I].
Qed.

Lemma reports_final :
  reports (content <- self_interfaces_content ;;
           wpa <- self_wpa_configs ;;
           ret (str_join nl content, wpa)).
Proof. intros self. now cbn. Qed.

Lemma grows_self_interfaces_content : grows self_interfaces_content.
Proof. intros self. exists []. cbn. now rewrite app_nil_r. Qed.

Lemma grows_self_wpa_configs : grows self_wpa_configs.
Proof. intros self. exists []. cbn. now rewrite app_nil_r. Qed.

(** Steps through the method bodies that make [convert]. *)
Ltac grows_steps :=
  repeat first
    [ apply grows_ret | apply grows_lift | apply grows_extend
    | apply grows_self_interfaces_content | apply grows_self_wpa_configs
    | apply grows_process_ethernets | apply grows_process_wifis
    | apply grows_bind; [|intros ?]
    | match goal with |- grows (if ?b then _ else _) => destruct b end ].

(** X3.  Whenever [convert] returns, on any document, the lines it has
    produced start with the loopback block, the text it returns is these
    lines joined by newlines, so it starts with [auto lo] and [iface lo
    inet loopback], and the documents it returns are those registered. *)
Theorem loopback_first (cfg : yaml) (text : string) (wpa : dict string)
  (self' : NetplanConverter) :
  run_convert cfg = (Ok (text, wpa), self') ->
  exists rest,
    interfaces_content self'
    = ["auto lo"; "iface lo inet loopback"; ""] ++ rest
    /\ text = str_join nl (interfaces_content self')
    /\ wpa = wpa_configs self'
    /\ String.prefix ("auto lo" +++ nl +++ "iface lo inet loopback" +++ nl) text
       = true.
Proof.
  unfold run_convert, convert.
  rewrite bind_run. unfold self_config at 1. cbn [config __init__].
  rewrite bind_run. unfold lift at 1.
  destruct (get cfg "version" (YInt 2)) as [version|]; [|discriminate].
  destruct (negb (eq_int version 2)); [discriminate|].
  rewrite bind_run. unfold interfaces_content_extend at 1.
  cbn [config interfaces_content wpa_configs app].
  match goal with
  | |- ?m ?s = _ -> _ =>
      assert (Hgrows : grows m) by grows_steps;
      assert (Hreports : reports m)
        by (repeat first [apply reports_final | apply reports_bind; intros ?]);
      specialize (Hgrows s); specialize (Hreports s);
      destruct (m s) as [[[t w]|e] s1]
  end; [|discriminate].
  intros [= -> -> ->]. destruct Hgrows as [rest Hrest].
  destruct Hreports as [-> ->]. cbn [snd interfaces_content] in Hrest.
  exists rest. split; [exact Hrest|]. split; [reflexivity|].
  split; [reflexivity|].
  rewrite Hrest. cbn [app str_join String.concat].
  apply (prefix_append ("auto lo" +++ nl +++ "iface lo inet loopback" +++ nl)).
Qed.

Lemma loopback_first_witness :
  exists rest,
    ["auto lo"; "iface lo inet loopback"; ""; "auto eth0"; "iface eth0 inet dhcp"; ""]
    = ["auto lo"; "iface lo inet loopback"; ""] ++ rest.
Proof.
  destruct (loopback_first (YMap []) _ _ _ eq_refl) as (rest & Hrest & _).
  exists rest. exact Hrest.
Defined.

(** ** Entries that are not interfaces, specs that are not mappings *)

Lemma for_each_renderer (is_wifi : bool) (entries : dict yaml)
  (self : NetplanConverter) :
  for_each entries
    (fun '(iface_name, iface_config) =>
       if String.eqb iface_name "renderer" then ret tt
       else _add_interface_config iface_name iface_config is_wifi) self
  = for_each (filter is_interface entries)
      (fun '(iface_name, iface_config) =>
         if String.eqb iface_name "renderer" then ret tt
         else _add_interface_config iface_name iface_config is_wifi) self.
Proof.
  revert self. induction entries as [|[n c] entries IH]; intros self;
    [reflexivity|].
  cbn [for_each filter].
  change (is_interface (n, c)) with (negb (String.eqb n "renderer")).
  destruct (String.eqb n "renderer") eqn:Hn; cbn [negb].
  - rewrite bind_run. unfold ret at 1. apply IH.
  - cbn [for_each]. rewrite !bind_run, Hn.
    destruct (_add_interface_config n c is_wifi self) as [[u|e] self1];
      [apply IH|reflexivity].
Qed.

(** X4.  A [renderer] key in the ethernet or the wireless section is not
    an interface: whatever it is bound to, the section is processed as if
    the key were not there. *)
Theorem renderer_is_skipped (entries : dict yaml) (self : NetplanConverter) :
  _process_ethernets (YMap entries) self
  = _process_ethernets (YMap (filter is_interface entries)) self
  /\ _process_wifis (YMap entries) self
     = _process_wifis (YMap (filter is_interface entries)) self.
Proof.
  unfold _process_ethernets, _process_wifis.
  rewrite !bind_run. unfold lift. cbn [items].
  split; apply for_each_renderer.
Qed.





(** ** More on [_cidr_to_netmask] *)

Lemma prefix_mask_ones (p : Z) :
  0 <= p <= 32 -> prefix_mask p = Z.shiftl (Z.ones p) (32 - p).
Proof.
  intros Hp. unfold prefix_mask.
  rewrite Z.shiftl_mul_pow2, Z.ones_equiv by lia. unfold Z.pred.
  replace (2 ^ 32) with (2 ^ p * 2 ^ (32 - p))
    by (rewrite <- Z.pow_add_r by lia; f_equal; lia).
  ring.
Qed.

(** X6.  For a prefix length [p] from 0 to 32, the mask that is printed
    has exactly its [p] most significant bits, of 32, set. *)
Theorem netmask_bits (p : Z) :
  0 <= p <= 32 ->
  _cidr_to_netmask p = Ok (dotted_quad (prefix_mask p))
  /\ forall i, 0 <= i ->
       Z.testbit (prefix_mask p) i = (32 - p <=? i) && (i <? 32).
Proof.
  intros Hp. split.
  - rewrite cidr_to_netmask_ok by lia. rewrite shift_mask_eq by lia.
    reflexivity.
  - intros i Hi. rewrite prefix_mask_ones by assumption.
    rewrite Z.shiftl_spec by assumption.
    destruct (Z.leb_spec (32 - p) i) as [Hle|Hlt].
    + rewrite Z.testbit_ones_nonneg by lia. cbn [andb].
      destruct (Z.ltb_spec (i - (32 - p)) p), (Z.ltb_spec i 32);
        try reflexivity; lia.
    + now rewrite Z.testbit_neg_r by lia.
Qed.

Lemma netmask_bits_witness :
  _cidr_to_netmask 20 = Ok (dotted_quad (prefix_mask 20))
  /\ Z.testbit (prefix_mask 20) 12 = true
  /\ Z.testbit (prefix_mask 20) 11 = false.
Proof.
  destruct (netmask_bits 20 ltac:(lia)) as [Hrun Hbits].
  split; [exact Hrun|]. split.
  - rewrite (Hbits 12) by lia. reflexivity.
  - rewrite (Hbits 11) by lia. reflexivity.
Defined.

(** X7.  Outside the range: a prefix length above 32 raises [ValueError]
    (the shift count is negative), and a negative prefix length is
    accepted and gives the empty mask [0.0.0.0]. *)
Theorem netmask_out_of_range (p : Z) :
  (32 < p -> _cidr_to_netmask p = Raise ValueError)
  /\ (p < 0 -> _cidr_to_netmask p = Ok "0.0.0.0").
Proof.
  split; [apply cidr_to_netmask_out_of_range|].
  intros Hp. rewrite cidr_to_netmask_ok by lia.
  rewrite Z.shiftr_eq_0; [now rewrite Z.shiftl_0_l|lia|].
  change (Z.log2 0xffffffff) with 31. lia.
Qed.

Lemma netmask_out_of_range_witness :
  _cidr_to_netmask 33 = Raise ValueError
  /\ _cidr_to_netmask (-1) = Ok "0.0.0.0".
Proof.
  destruct (netmask_out_of_range 33) as [Hhigh _].
  destruct (netmask_out_of_range (-1)) as [_ Hlow].
  split; [apply Hhigh|apply Hlow]; lia.
Defined.

(** The prefix lengths from 0 to 32. *)
Lemma prefix_range (p : Z) :
  0 <= p <= 32 -> In p (map Z.of_nat (seq 0 33)).
Proof.
  intros Hp. apply in_map_iff. exists (Z.to_nat p). split; [lia|].
  apply in_seq. lia.
Qed.

Lemma netmask_table_distinct :
  forallb (fun p =>
    forallb (fun q =>
      match _cidr_to_netmask p, _cidr_to_netmask q with
      | Ok s, Ok t => implb (String.eqb s t) (p =? q)
      | _, _ => false
      end) (map Z.of_nat (seq 0 33))) (map Z.of_nat (seq 0 33)) = true.
Proof. vm_compute. reflexivity. Qed.

(** X8.  Between 0 and 32, different prefix lengths give different
    netmasks: the prefix length can be read back from the mask. *)
Theorem netmask_injective (p q : Z) :
  0 <= p <= 32 -> 0 <= q <= 32 ->
  _cidr_to_netmask p = _cidr_to_netmask q -> p = q.
Proof.
  intros Hp Hq Heq.
  pose proof netmask_table_distinct as Htable.
  rewrite forallb_forall in Htable.
  specialize (Htable p (prefix_range p Hp)).
  rewrite forallb_forall in Htable.
  specialize (Htable q (prefix_range q Hq)).
  rewrite <- Heq in Htable.
  destruct (_cidr_to_netmask p) as [s|]; [|discriminate].
  rewrite String.eqb_refl in Htable. cbn [implb] in Htable.
  now apply Z.eqb_eq.
Qed.

Lemma netmask_injective_witness :
  _cidr_to_netmask (8 + 16) = _cidr_to_netmask 24 /\ 8 + 16 = 24.
Proof.
  split; [reflexivity|].
  exact (netmask_injective (8 + 16) 24 ltac:(lia) ltac:(lia) eq_refl).
Defined.

(** ** Addresses in CIDR notation *)

Lemma str_split_no_sep (c : ascii) (s : string) :
  str_contains (String c EmptyString) s = false -> str_split c s = [s].
Proof.
  rewrite str_contains_split. intros H.
  destruct (str_split c s) as [|x [|y l]] eqn:E; try discriminate.
  now rewrite (str_split_single _ _ _ E).
Qed.

Lemma str_split_pair (c : ascii) (s t : string) :
  str_contains (String c EmptyString) s = false ->
  str_contains (String c EmptyString) t = false ->
  str_split c (s +++ String c t) = [s; t].
Proof.
  intros Hs Ht. induction s as [|a s IH].
  - cbn [String.append str_split]. rewrite Ascii.eqb_refl.
    now rewrite str_split_no_sep.
  - cbn [str_contains String.prefix] in Hs.
    apply orb_false_iff in Hs. destruct Hs as [Ha Hs].
    cbn [String.append str_split].
    destruct (Ascii.eqb_spec a c) as [->|_].
    + destruct (ascii_dec c c); [|contradiction].
      now destruct s.
    + now rewrite (IH Hs).
Qed.

Lemma prefix_text_table :
  forallb (fun n =>
    negb (str_contains "/" (str_of_int n))
    && match int_of_str (str_of_int n) with
       | Some m => m =? n
       | None => false
       end) (map Z.of_nat (seq 0 33)) = true.
Proof. vm_compute. reflexivity. Qed.

(** X9.  An address written [<ip>/<n>], with no [/] in [<ip>] and [n]
    from 0 to 32 in decimal, is split at the slash and gives the line
    [address <ip>] followed by [netmask <mask of n>]. *)
Theorem cidr_address_lines (ip : string) (n : Z) (acc : list string) :
  str_contains "/" ip = false ->
  0 <= n <= 32 ->
  address_step acc (YStr (ip +++ "/" +++ str_of_int n))
  = Ok (acc ++ ["    address " +++ ip;
                "    netmask " +++ dotted_quad (prefix_mask n)]).
Proof.
  intros Hip Hn.
  pose proof prefix_text_table as Htable. rewrite forallb_forall in Htable.
  specialize (Htable n (prefix_range n Hn)).
  apply andb_true_iff in Htable. destruct Htable as [Hslash Hint].
  apply negb_true_iff in Hslash.
  destruct (int_of_str (str_of_int n)) as [m|] eqn:Em; [|discriminate].
  apply Z.eqb_eq in Hint. subst m.
  change (ip +++ "/" +++ str_of_int n)
    with (ip +++ String "/" (str_of_int n)).
  rewrite address_step_valid.
  - cbn [address_lines]. now rewrite (str_split_pair "/" ip _ Hip Hslash), Em.
  - cbn [valid_address]. rewrite (str_split_pair "/" ip _ Hip Hslash), Em.
    apply andb_true_iff. split; apply Z.leb_le; lia.
Qed.

Lemma cidr_address_lines_witness :
  address_step ["iface eth1 inet static"] (YStr "192.168.1.100/24")
  = Ok ["iface eth1 inet static"; "    address 192.168.1.100";
        "    netmask 255.255.255.0"].
Proof.
  exact (cidr_address_lines "192.168.1.100" 24 ["iface eth1 inet static"]
           eq_refl ltac:(lia)).
Defined.

(** ** The MTU line *)






(** ** The optional lines of a network block *)






(** ** The lines of a joined text *)









(** ** One credential document per wireless interface with access points *)








(** ** The [network] wrapper *)

(** X14.  The [network] wrapper is optional: a valid document without a
    [network] key and the same document wrapped under [network] give the
    same interfaces text and the same credential documents. *)
Theorem network_wrapper_optional (network : dict yaml) :
  valid_config (YMap network) = true ->
  dict_get network "network" = None ->
  fst (run_convert (YMap [("network", YMap network)]))
  = fst (run_convert (YMap network)).
Proof.
  intros Hvalid Hnone.
  assert (Hnet : network_of network = YMap network)
    by (unfold network_of; now rewrite Hnone).
  rewrite (convert_valid network network Hvalid Hnet).
  rewrite (convert_valid [("network", YMap network)] network);
    [reflexivity| |reflexivity].
  cbn [valid_config] in Hvalid. rewrite Hnet in Hvalid.
  apply andb_true_iff in Hvalid. destruct Hvalid as [_ Hsections].
  exact Hsections.
Qed.

Lemma network_wrapper_optional_witness :
  fst (run_convert
         (YMap [("network", YMap [("ethernets", YMap [("eth0", YMap [])])])]))
  = fst (run_convert (YMap [("ethernets", YMap [("eth0", YMap [])])])).
Proof.
  exact (network_wrapper_optional [("ethernets", YMap [("eth0", YMap [])])]
           eq_refl eq_refl).
Defined.


(** ** The order of the blocks *)




(** ** Where the version error comes from *)

Lemma plain_ok {A} (a : A) : plain (Ok a).
Proof. intros msg. discriminate. Qed.

Lemma plain_bind {A B} (r : result A) (k : A -> result B) :
  plain r -> (forall a, plain (k a)) -> plain (rbind r k).
Proof.
  intros Hr Hk. destruct r as [a|e]; cbn [rbind]; [apply Hk|].
  intros msg [= ->]. now apply (Hr msg).
Qed.

Lemma plain_contains (k : string) (v : yaml) : plain (contains k v).
Proof. destruct v; intros msg; discriminate. Qed.

Lemma plain_getitem (v : yaml) (k : string) : plain (getitem v k).
Proof.
  destruct v; intros msg; try discriminate.
  cbn [getitem]. destruct (dict_get m k); discriminate.
Qed.

Lemma plain_get (v : yaml) (k : string) (d : yaml) : plain (get v k d).
Proof. destruct v; intros msg; discriminate. Qed.

Lemma plain_items (v : yaml) : plain (items v).
Proof. destruct v; intros msg; discriminate. Qed.

Lemma plain_iter (v : yaml) : plain (iter v).
Proof. destruct v; intros msg; discriminate. Qed.

Lemma plain_len (v : yaml) : plain (len v).
Proof. destruct v; intros msg; discriminate. Qed.

Lemma plain_split (v : yaml) (c : ascii) : plain (split v c).
Proof. destruct v; intros msg; discriminate. Qed.

Lemma plain_all_str (l : list yaml) : plain (all_str l).
Proof.
  induction l as [|v l IH]; [apply plain_ok|].
  destruct v; try (intros msg; discriminate).
  cbn [all_str]. apply plain_bind; [exact IH|intros; apply plain_ok].
Qed.

Lemma plain_all_in (alphabet : string) (l : list yaml) : plain (all_in alphabet l).
Proof.
  induction l as [|v l IH]; [apply plain_ok|].
  destruct v; try (intros msg; discriminate).
  cbn [all_in]. destruct (str_contains s alphabet); [exact IH|apply plain_ok].
Qed.

Lemma plain_cidr_to_netmask (p : Z) : plain (_cidr_to_netmask p).
Proof.
  unfold _cidr_to_netmask. destruct (32 - p <? 0); intros msg; discriminate.
Qed.

Lemma plain_for_acc {A B} (step : B -> A -> result B) (l : list A) :
  (forall acc x, plain (step acc x)) -> forall acc, plain (for_acc step l acc).
Proof.
  intros Hstep. induction l as [|x l IH]; intros acc; cbn [for_acc].
  - apply plain_ok.
  - apply plain_bind; [apply Hstep|exact IH].
Qed.

Ltac plain_steps :=
  repeat first
    [ apply plain_ok | apply plain_contains | apply plain_getitem
    | apply plain_get | apply plain_items | apply plain_iter | apply plain_len
    | apply plain_split | apply plain_all_str | apply plain_all_in
    | apply plain_cidr_to_netmask
    | apply plain_bind; [|intros ?]
    | match goal with
      | |- plain (if ?b then _ else _) => destruct b
      | |- plain (match ?x with _ => _ end) => destruct x
      | |- plain (Raise _) => intros ?; discriminate
      end ].

Lemma plain_network_block (lines : list string) (ap : string * yaml) :
  plain (network_block lines ap).
Proof. destruct ap as [ssid ap_config]. unfold network_block. plain_steps. Qed.

Lemma plain_generate (access_points : yaml) :
  plain (_generate_wpa_supplicant_config access_points).
Proof.
  unfold _generate_wpa_supplicant_config. plain_steps.
  apply plain_for_acc. intros; apply plain_network_block.
Qed.

Lemma plain_address_step (lines : list string) (addr : yaml) :
  plain (address_step lines addr).
Proof. unfold address_step. plain_steps. Qed.

Lemma plain_route_step (lines : list string) (route : yaml) :
  plain (route_step lines route).
Proof. unfold route_step. plain_steps. Qed.

Lemma plain_addressing (n : string) (c : yaml) (lines : list string) :
  plain (addressing n c lines).
Proof.
  unfold addressing, join. plain_steps.
  apply plain_for_acc. intros; apply plain_address_step.
Qed.

Lemma plain_mtu_directive (c : yaml) (lines : list string) :
  plain (mtu_directive c lines).
Proof. unfold mtu_directive. plain_steps. Qed.

Lemma plain_route_directives (c : yaml) (lines : list string) :
  plain (route_directives c lines).
Proof.
  unfold route_directives. plain_steps.
  apply plain_for_acc. intros; apply plain_route_step.
Qed.















(* ================================================================== *)
(** * Further properties: writing the files *)
(* ================================================================== *)

Lemma io_bind_run {A B} (m : IO A) (k : A -> IO B) (trace : list action) :
  io_bind m k trace
  = match m trace with
    | (Done a, trace') => k a trace'
    | (Failed f, trace') => (Failed f, trace')
    end.
Proof. reflexivity. Qed.

Lemma performs_ret {A} (v : A) : performs (io_ret v) [] v.
Proof. intros trace. cbn. now rewrite app_nil_r. Qed.

Lemma performs_out (a : action) : performs (out a) [a] tt.
Proof. intros trace. now cbn. Qed.

Lemma performs_call (e : env) (a : action) :
  is_fs a = true -> performs (call e a) [a] tt.
Proof.
  intros Hfs trace. unfold call. destruct (os_raises e trace a).
  - split; [reflexivity|]. exists [], a, []. now repeat split.
  - now split.
Qed.

Lemma performs_bind {A B} (m : IO A) (k : A -> IO B) (p1 p2 : list action)
  (v : A) (w : B) :
  performs m p1 v -> performs (k v) p2 w -> performs (io_bind m k) (p1 ++ p2) w.
Proof.
  intros Hm Hk trace. rewrite io_bind_run. specialize (Hm trace).
  destruct (m trace) as [[a|f] t1].
  - destruct Hm as [-> ->]. specialize (Hk (trace ++ p1)).
    destruct (k v (trace ++ p1)) as [[b|f] t2].
    + destruct Hk as [-> ->]. split; [reflexivity|]. now rewrite app_assoc.
    + destruct Hk as (-> & before & a & rest & -> & -> & Hfs).
      split; [reflexivity|]. exists (p1 ++ before), a, rest.
      split; [now rewrite <- !app_assoc|].
      split; [now rewrite <- !app_assoc|assumption].
  - destruct Hm as (-> & before & a & rest & -> & -> & Hfs).
    split; [reflexivity|]. exists before, a, (rest ++ p2).
    split; [now rewrite <- app_assoc|]. split; [reflexivity|assumption].
Qed.

Lemma performs_for_each {A} (l : list A) (body : A -> IO unit)
  (f : A -> list action) :
  (forall x, performs (body x) (f x) tt) ->
  performs (io_for_each l body) (flat_map f l) tt.
Proof.
  intros Hbody. induction l as [|x l IH]; cbn [io_for_each flat_map].
  - apply performs_ret.
  - apply (performs_bind _ _ _ _ tt); [apply Hbody|exact IH].
Qed.

Lemma write_output_files_performs (e : env) (interfaces_content : string)
  (wpa_configs : dict string) (output_dir : option string) :
  performs (write_output_files e interfaces_content wpa_configs output_dir false)
    (write_plan interfaces_content wpa_configs output_dir) tt.
Proof.
  unfold write_output_files, write_plan.
  apply (performs_bind _ _ _ _
           (interfaces_path output_dir, wpa_dir output_dir)).
  - unfold directories, interfaces_path, wpa_dir, given.
    destruct output_dir as [dir|]; [destruct (negb (String.eqb dir ""))|].
    + apply (performs_bind _ _ [_] [_] tt); [apply performs_call; reflexivity|].
      apply (performs_bind _ _ [_] [] tt); [apply performs_call; reflexivity|].
      apply performs_ret.
    + apply (performs_bind _ _ [_] [] tt); [apply performs_call; reflexivity|].
      apply performs_ret.
    + apply (performs_bind _ _ [_] [] tt); [apply performs_call; reflexivity|].
      apply performs_ret.
  - cbn [fst snd].
    apply (performs_bind _ _ [_] _ tt); [apply performs_out|].
    apply (performs_bind _ _ [_] _ tt); [apply performs_call; reflexivity|].
    apply (performs_bind _ _ _ [_] tt); [|apply performs_out].
    apply performs_for_each. intros [iface_name wpa_content].
    cbn [fst snd]. fold (wpa_path output_dir iface_name).
    apply (performs_bind _ _ [_] [_; _] tt); [apply performs_out|].
    apply (performs_bind _ _ [_] [_] tt); apply performs_call; reflexivity.
Qed.

Lemma performs_prints {A} (m : IO A) (plan : list action) (v : A) :
  performs m plan v ->
  Forall (fun a => is_fs a = false) plan ->
  forall trace, m trace = (Done v, trace ++ plan).
Proof.
  intros Hm Hplan trace. specialize (Hm trace).
  destruct (m trace) as [[a|f] t].
  - now destruct Hm as [-> ->].
  - destruct Hm as (_ & before & a & rest & -> & _ & Hfs).
    apply Forall_app in Hplan. destruct Hplan as [_ Hplan].
    inversion Hplan as [|? ? Ha _]; subst. congruence.
Qed.

Lemma dry_run_performs (e : env) (interfaces_content : string)
  (wpa_configs : dict string) (output_dir : option string) :
  performs (write_output_files e interfaces_content wpa_configs output_dir true)
    (dry_run_report interfaces_content wpa_configs) tt.
Proof.
  unfold write_output_files, dry_run_report.
  apply (performs_bind _ _ [_] _ tt); [apply performs_out|].
  apply (performs_bind _ _ [_] _ tt); [apply performs_out|].
  apply (performs_bind _ _ [_] _ tt); [apply performs_out|].
  apply (performs_bind _ _ [_] _ tt); [apply performs_out|].
  apply (performs_bind _ _ [_] _ tt); [apply performs_out|].
  apply performs_for_each. intros [iface_name wpa_content]. cbn [fst snd].
  apply (performs_bind _ _ [_] [_; _; _; _] tt); [apply performs_out|].
  apply (performs_bind _ _ [_] [_; _; _] tt); [apply performs_out|].
  apply (performs_bind _ _ [_] [_; _] tt); [apply performs_out|].
  apply (performs_bind _ _ [_] [_] tt); apply performs_out.
Qed.

Lemma dry_run_report_prints (interfaces_content : string)
  (wpa_configs : dict string) :
  Forall (fun a => is_fs a = false)
    (dry_run_report interfaces_content wpa_configs).
Proof.
  unfold dry_run_report. apply Forall_app. split; [repeat constructor|].
  apply Forall_flat_map. intros entry. repeat constructor.
Qed.

Lemma dry_run_returns (e : env) (interfaces_content : string)
  (wpa_configs : dict string) (output_dir : option string)
  (trace : list action) :
  write_output_files e interfaces_content wpa_configs output_dir true trace
  = (Done tt, trace ++ dry_run_report interfaces_content wpa_configs).
Proof.
  apply performs_prints; [apply dry_run_performs|apply dry_run_report_prints].
Qed.

(** X17.  A dry run of [write_output_files] makes no call to the file
    system and always returns, whatever the output directory and the state
    of the file system: it prints the interfaces text, then every
    credential document, under their headings. *)
Theorem dry_run_only_prints (e : env) (interfaces_content : string)
  (wpa_configs : dict string) (output_dir : option string)
  (trace : list action) :
  write_output_files e interfaces_content wpa_configs output_dir true trace
  = (Done tt, trace ++ dry_run_report interfaces_content wpa_configs)
  /\ Forall (fun a => is_fs a = false)
       (dry_run_report interfaces_content wpa_configs)
  /\ In (Print Stdout interfaces_content)
       (dry_run_report interfaces_content wpa_configs)
  /\ forall iface_name wpa_content,
       In (iface_name, wpa_content) wpa_configs ->
       In (Print Stdout wpa_content)
         (dry_run_report interfaces_content wpa_configs).
Proof.
  split; [|split; [apply dry_run_report_prints|split]].
  - apply dry_run_returns.
  - unfold dry_run_report. apply in_or_app. left. cbn. tauto.
  - intros n c Hin. unfold dry_run_report. apply in_or_app. right.
    apply in_flat_map. exists (n, c). split; [exact Hin|]. cbn. tauto.
Qed.

(** X18.  When [write_output_files] writes, the calls it makes are an
    initial segment of: the directories, the interfaces file, then for
    every credential document its file followed at once by a [chmod] to
    [0o600], then the closing message.  The segment is the whole sequence
    when the function returns; otherwise it ends with the call to the file
    system that raised.  No other [chmod] is made: the interfaces file
    keeps its default permissions. *)
Theorem writes_follow_plan (e : env) (interfaces_content : string)
  (wpa_configs : dict string) (output_dir : option string)
  (trace : list action) :
  let plan := write_plan interfaces_content wpa_configs output_dir in
  match write_output_files e interfaces_content wpa_configs output_dir false
          trace with
  | (Done _, trace') => trace' = trace ++ plan
  | (Failed f, trace') =>
      f = OSError
      /\ exists before a rest,
           plan = before ++ a :: rest
           /\ trace' = trace ++ before ++ [a]
           /\ is_fs a = true
  end
  /\ (forall iface_name wpa_content,
        In (iface_name, wpa_content) wpa_configs ->
        exists before rest,
          plan = before
                 ++ WriteFile (wpa_path output_dir iface_name) wpa_content
                 :: Chmod (wpa_path output_dir iface_name) mode_0o600
                 :: rest)
  /\ (forall p mode,
        In (Chmod p mode) plan ->
        mode = mode_0o600
        /\ exists iface_name wpa_content,
             In (iface_name, wpa_content) wpa_configs
             /\ p = wpa_path output_dir iface_name).
Proof.
  intros plan. split; [|split].
  - pose proof (write_output_files_performs e interfaces_content wpa_configs
                  output_dir trace) as H.
    destruct (write_output_files e interfaces_content wpa_configs output_dir
                false trace) as [[u|f] t]; [now destruct H|exact H].
  - intros n c Hin. apply in_split in Hin. destruct Hin as (l1 & l2 & ->).
    subst plan. unfold write_plan. rewrite flat_map_app.
    cbn [flat_map fst snd].
    exists (directories output_dir
            ++ [PrintWriting (interfaces_path output_dir);
                WriteFile (interfaces_path output_dir) interfaces_content]
            ++ flat_map (fun entry : string * string =>
                 [PrintWriting (wpa_path output_dir (fst entry));
                  WriteFile (wpa_path output_dir (fst entry)) (snd entry);
                  Chmod (wpa_path output_dir (fst entry)) mode_0o600]) l1
            ++ [PrintWriting (wpa_path output_dir n)]).
    eexists. repeat rewrite <- app_assoc. cbn [app]. reflexivity.
  - intros p mode Hin. subst plan. unfold write_plan in Hin.
    apply in_app_or in Hin. destruct Hin as [Hin|Hin].
    { exfalso. unfold directories in Hin.
      destruct output_dir as [dir|]; [destruct (given (Some dir))|];
        cbn [In] in Hin;
        repeat (destruct Hin as [Hin|Hin]; [discriminate Hin|]);
        exact Hin. }
    apply in_app_or in Hin. destruct Hin as [Hin|Hin].
    { exfalso. cbn [In] in Hin.
      repeat (destruct Hin as [Hin|Hin]; [discriminate Hin|]). exact Hin. }
    apply in_app_or in Hin. destruct Hin as [Hin|Hin].
    + apply in_flat_map in Hin. destruct Hin as ([n c] & Hentry & Hin).
      cbn [In fst snd] in Hin.
      destruct Hin as [H|[H|[H|[]]]]; try discriminate H.
      injection H as <- <-. split; [reflexivity|]. now exists n, c.
    + exfalso. cbn [In] in Hin.
      repeat (destruct Hin as [Hin|Hin]; [discriminate Hin|]). exact Hin.
Qed.

(** ** [main] *)

Lemma main_body (e : env) (a : args) :
  path_exists e (input_file a) = true ->
  negb (dry_run a) && negb (given (output_dir a)) && negb (geteuid e =? 0)
  = false ->
  let loading :=
    Print Stdout ("Loading configuration from " +++ input_file a +++ "...") in
  let converting := Print Stdout "Converting configuration..." in
  main e a
  = match load_netplan_config e (input_file a) with
    | None => ([loading; PrintError LoadError; PrintTraceback], 1)
    | Some config =>
        match fst (run_convert config) with
        | Raise ex =>
            ([loading; converting; PrintError (ConvertError ex); PrintTraceback],
             1)
        | Ok converted =>
            match write_output_files e (fst converted) (snd converted)
                    (output_dir a) (dry_run a) [loading; converting] with
            | (Done _, trace) => (trace, 0)
            | (Failed f, trace) => (trace ++ [PrintError f; PrintTraceback], 1)
            end
        end
    end.
Proof.
  intros Hexists Hgate loading converting. unfold main.
  rewrite Hexists, Hgate. cbn [negb].
  rewrite io_bind_run. unfold out at 1. cbn [app].
  rewrite io_bind_run.
  destruct (load_netplan_config e (input_file a)) as [config|];
    [|reflexivity].
  unfold io_ret at 1. rewrite io_bind_run. unfold out at 1. cbn [app].
  rewrite io_bind_run.
  destruct (fst (run_convert config)) as [converted|ex]; reflexivity.
Qed.

(** X19.  When the configuration cannot be loaded, or when the
    translation raises, [main] writes nothing: it reports the error on the
    error stream, prints the traceback and exits with status 1, without any
    call to the file system. *)
Theorem failed_translation_writes_nothing (e : env) (a : args) :
  path_exists e (input_file a) = true ->
  negb (dry_run a) && negb (given (output_dir a)) && negb (geteuid e =? 0)
  = false ->
  let loading :=
    Print Stdout ("Loading configuration from " +++ input_file a +++ "...") in
  let converting := Print Stdout "Converting configuration..." in
  (load_netplan_config e (input_file a) = None ->
   main e a = ([loading; PrintError LoadError; PrintTraceback], 1))
  /\ (forall config ex,
        load_netplan_config e (input_file a) = Some config ->
        fst (run_convert config) = Raise ex ->
        main e a
        = ([loading; converting; PrintError (ConvertError ex); PrintTraceback],
           1)).
Proof.
  intros Hexists Hgate loading converting. split.
  - intros Hload. rewrite (main_body e a Hexists Hgate). now rewrite Hload.
  - intros config ex Hload Hraise.
    rewrite (main_body e a Hexists Hgate). now rewrite Hload, Hraise.
Qed.

Lemma failed_translation_writes_nothing_witness :
  main (mkEnv (fun _ => true) 0 (fun _ => Some (YMap [("version", YInt 1)]))
          (fun _ _ => false))
       (mkArgs "network-config.yaml" None false)
  = ([Print Stdout "Loading configuration from network-config.yaml...";
      Print Stdout "Converting configuration...";
      PrintError (ConvertError
                    (ValueError_msg "Unsupported netplan version: 1"));
      PrintTraceback],
     1).
Proof.
  exact (proj2 (failed_translation_writes_nothing
                  (mkEnv (fun _ => true) 0
                     (fun _ => Some (YMap [("version", YInt 1)]))
                     (fun _ _ => false))
                  (mkArgs "network-config.yaml" None false) eq_refl eq_refl)
           (YMap [("version", YInt 1)])
           (ValueError_msg "Unsupported netplan version: 1")
           eq_refl eq_refl).
Defined.




